(** * Membership reconciliation and sentiment fan-out of the Telegram client

    A shallow embedding of [TelegramClient.setupPermissionChecker]
    (telegramClient.ts) and of [SentimentService] (sentiment.ts): the
    timer callback that reconciles stored permission records with live
    group membership, and the pub/sub handler that forwards sentiment
    batches to the private group.

    External collaborators (the Redis connections, the Bull queue, the
    Telegram Bot API, [JSON.parse]) are oracles collected in a [World];
    every call the code makes is recorded as an [Event], so that "no ban
    is issued", "the payload is not parsed" and the like are statements
    about the emitted trace. *)

From Stdlib Require Import Ascii String PrimFloat.
From stdpp Require Import base option list strings pretty gmap.

Set Warnings "-register-all".
Local Open Scope string_scope.

(** ** JavaScript values and string helpers *)

Module JS.

(** [String.prototype.startsWith]. *)
Fixpoint startsWith (s p : string) : bool :=
  match p with
  | EmptyString => true
  | String c p' =>
      match s with
      | EmptyString => false
      | String d s' => if Ascii.eqb c d then startsWith s' p' else false
      end
  end.

Fixpoint skip (n : nat) (s : string) : string :=
  match n, s with
  | O, _ => s
  | S _, EmptyString => EmptyString
  | S n', String _ s' => skip n' s'
  end.

(** [String.prototype.replace] with a string pattern: only the first
    occurrence is replaced.  (The replacement strings of the source
    contain no [$], so no replacement pattern is expanded.) *)
Fixpoint replace (s pat rep : string) : string :=
  if startsWith s pat then rep +:+ skip (String.length pat) s
  else match s with
       | EmptyString => EmptyString
       | String c s' => String c (replace s' pat rep)
       end.

(** [String.prototype.split] with a one-character separator. *)
Fixpoint split (s : string) (sep : ascii) : list string :=
  match s with
  | EmptyString => [EmptyString]
  | String c s' =>
      if Ascii.eqb c sep then EmptyString :: split s' sep
      else match split s' sep with
           | x :: r => String c x :: r
           | [] => [String c EmptyString]
           end
  end.

(** The values [JSON.parse] can return, plus [undefined]. *)
Inductive value : Type :=
| Undefined
| Null
| Bool (b : bool)
| Num (x : float)
| Str (s : string)
| Arr (items : list value)
| Obj (fields : list (string * value)).

(** The errors the modelled code can see thrown. *)
Inductive error : Type :=
| SyntaxError          (* JSON.parse on malformed text *)
| TypeError            (* property read on null or undefined *)
| ExternalError (description : string). (* rejected call to a collaborator *)

(** ToBoolean. *)
Definition truthy (v : value) : bool :=
  match v with
  | Undefined | Null => false
  | Bool b => b
  | Num x => negb (PrimFloat.eqb x 0%float || PrimFloat.is_nan x)
  | Str s => negb (String.eqb s "")
  | Arr _ | Obj _ => true
  end.

Fixpoint assoc (k : string) (fs : list (string * value)) : option value :=
  match fs with
  | [] => None
  | (k', v) :: fs' => if String.eqb k k' then Some v else assoc k fs'
  end.

(** [v.name] for an own data property: a [TypeError] on [null] and
    [undefined], [undefined] when the property is absent. *)
Definition get (v : value) (name : string) : error + value :=
  match v with
  | Undefined | Null => inl TypeError
  | Obj fs => inr (default Undefined (assoc name fs))
  | _ => inr Undefined
  end.

(** [v === 0]. *)
Definition strict_eq_zero (v : value) : bool :=
  match v with
  | Num x => PrimFloat.eqb x 0%float
  | _ => false
  end.

(** How a template literal prints a possibly undefined string. *)
Definition show (o : option string) : string := default "undefined" o.

End JS.

(** ** Destination identifier normalisation

    The expression
    [id.startsWith("-100") ? id : `-100${id.replace("-", "")}`]
    occurs verbatim in the permission checker and in
    [SentimentService.broadcastUpdate]. *)

Definition formatGroupId (id : string) : string :=
  if JS.startsWith id "-100" then id
  else "-100" +:+ JS.replace id "-" "".

(** The normalisation as the specification words it: an identifier that
    already carries the supergroup prefix is kept, any other one loses a
    leading sign and gets the prefix. *)
Definition strip_leading_sign (id : string) : string :=
  match id with
  | EmptyString => EmptyString
  | String c rest => if Ascii.eqb c "-" then rest else id
  end.

Definition normalize_spec (id : string) : string :=
  if JS.startsWith id "-100" then id
  else "-100" +:+ strip_leading_sign id.

(** [s] without its first "-", wherever that is. *)
Fixpoint remove_first_dash (s : string) : string :=
  match s with
  | EmptyString => EmptyString
  | String c s' => if Ascii.eqb c "-" then s' else String c (remove_first_dash s')
  end.

(** [has_dash s]: the character "-" occurs in [s]. *)
Fixpoint has_dash (s : string) : bool :=
  match s with
  | EmptyString => false
  | String c s' => Ascii.eqb c "-" || has_dash s'
  end.

(** An identifier whose only possible "-" is its first character, as in
    a signed decimal number. *)
Definition sign_only_leading (id : string) : Prop :=
  match id with
  | EmptyString => True
  | String _ rest => has_dash rest = false
  end.

(** A signed decimal number, the form of a Telegram chat id: an
    optional "-" followed by at least one digit. *)
Definition is_digit (c : ascii) : bool :=
  (48 <=? nat_of_ascii c)%nat && (nat_of_ascii c <=? 57)%nat.

Fixpoint all_digits (s : string) : bool :=
  match s with
  | EmptyString => true
  | String c s' => is_digit c && all_digits s'
  end.

Definition is_signed_number (id : string) : bool :=
  match id with
  | EmptyString => false
  | String c rest =>
      if Ascii.eqb c "-"
      then all_digits rest && negb (String.eqb rest "")
      else all_digits id
  end.

(** ** Effects: shared state, trace and completions *)

(** The two connections of [RedisService] (redis.ts): the key space
    reached through the command connection [redis], and the subscriber
    connection with the channels it is subscribed to.  A connection that
    has been [quit] rejects every further command.  The keys under which
    the Bull queue of balanceChecker.ts keeps its jobs in the same Redis
    are not part of [redis]: the properties below speak of the
    permission keys only. *)
Record RedisService : Type := {
  redis : gmap string string;
  subscriber_open : bool;
  subscriber : gset string;
}.

Definition with_redis (m : gmap string string) (s : RedisService) : RedisService :=
  {| redis := m; subscriber_open := subscriber_open s; subscriber := subscriber s |}.

Definition with_subscriber (c : gset string) (s : RedisService) : RedisService :=
  {| redis := redis s; subscriber_open := subscriber_open s; subscriber := c |}.

(** [subscriber.quit()], as the SIGTERM handler of redis.ts calls it. *)
Definition quit_subscriber (s : RedisService) : RedisService :=
  {| redis := redis s; subscriber_open := false; subscriber := ∅ |}.

Inductive level : Type := Info | Warn | Error.

Inductive log_arg : Type :=
| NoArg
| ErrorArg (e : JS.error)
| ValueArg (v : JS.value).

(** Every call that leaves the process, and every log line. *)
Inductive Event : Type :=
| Log (l : level) (msg : string) (arg : log_arg)
| QueueAdd (groupId : string)
| RedisKeys (pattern : string)
| RedisGet (key : string)
| RedisDel (key : string)
| JsonParse (text : string)
| GetChatMember (chat : string) (user : option string)
| BanChatMember (chat : string) (user : option string)
| SendMessage (chat : string) (text : string)
| Subscribe (channel : string)
| Unsubscribe (channel : string).

(** How a statement list ends: normally, by [continue] (to the enclosing
    loop), or by a thrown error. *)
Inductive completion (A : Type) : Type :=
| Normal (a : A)
| Continue
| Throw (e : JS.error).
Arguments Normal {A} a.
Arguments Continue {A}.
Arguments Throw {A} e.

Record outcome (A : Type) : Type := Outcome {
  res : completion A;
  final : RedisService;
  trace : list Event;
}.
Arguments Outcome {A} _ _ _.
Arguments res {A} _.
Arguments final {A} _.
Arguments trace {A} _.

Definition M (A : Type) : Type := RedisService -> outcome A.

Definition after {A} (t : list Event) (o : outcome A) : outcome A :=
  match o with
  | Outcome c s t' => Outcome c s (t ++ t')
  end.

Definition ret {A} (a : A) : M A := fun s => Outcome (Normal a) s [].

Definition bind {A B} (m : M A) (f : A -> M B) : M B :=
  fun s =>
    match m s with
    | Outcome (Normal a) s' t => after t (f a s')
    | Outcome Continue s' t => Outcome Continue s' t
    | Outcome (Throw e) s' t => Outcome (Throw e) s' t
    end.

Definition emit (e : Event) : M unit := fun s => Outcome (Normal tt) s [e].
Definition throw {A} (e : JS.error) : M A := fun s => Outcome (Throw e) s [].
Definition continue {A} : M A := fun s => Outcome Continue s [].

(** [try { m } catch (error) { h error }]; a [continue] leaves the
    [try] block untouched. *)
Definition try_catch {A} (m : M A) (h : JS.error -> M A) : M A :=
  fun s =>
    match m s with
    | Outcome (Throw e) s' t => after t (h e s')
    | o => o
    end.

(** [for (const x of l) { body x }]: a [continue] in the body moves on
    to the next element, a throw leaves the loop. *)
Fixpoint for_of {A} (l : list A) (body : A -> M unit) : M unit :=
  match l with
  | [] => ret tt
  | x :: l' =>
      fun s =>
        match body x s with
        | Outcome (Throw e) s' t => Outcome (Throw e) s' t
        | Outcome _ s' t => after t (for_of l' body s')
        end
  end.

Declare Scope js_scope.
Delimit Scope js_scope with js.
Bind Scope js_scope with M.
Notation "'let*' x ':=' m 'in' f" := (bind m (fun x => f))
  (at level 10, x name, m at level 100, f at level 200) : js_scope.
Notation "m ;; f" := (bind m (fun _ => f))
  (at level 100, f at level 200, right associativity) : js_scope.

(** An awaited call that resolves with a value or rejects. *)
Definition await {A} (r : JS.error + A) : M A :=
  match r with
  | inl e => throw e
  | inr a => ret a
  end.

Definition await_unit (r : option JS.error) : M unit :=
  match r with
  | Some e => throw e
  | None => ret tt
  end.

Definition log (l : level) (msg : string) (arg : log_arg) : M unit :=
  emit (Log l msg arg).

(** ** The world outside the process *)

(** What [getChatMember] resolves with: [member.status] and
    [member.user.is_bot]. *)
Record ChatMember : Type := {
  status : string;
  is_bot : bool;
}.

(** The collaborators as the code sees them during one callback: what
    each awaited call resolves or rejects with, the same arguments
    getting the same reply throughout the callback.  [None] in an
    [option JS.error] means the call resolved. *)
Record World : Type := {
  PRIVATE_GROUP_ID : option string;
      (* runtime.getSetting("PRIVATE_GROUP_ID") *)
  queue_add : string -> option JS.error;
      (* balanceCheckService.queue.add({ groupId, timestamp }) *)
  redis_keys_fault : option JS.error;
  redis_get_fault : string -> option JS.error;
  redis_del_fault : string -> option JS.error;
  JSON_parse : string -> JS.error + JS.value;
  getChatMember : string -> option string -> JS.error + ChatMember;
  banChatMember : string -> option string -> option JS.error;
  sendMessage : string -> string -> option JS.error;
  formatUpdateMessage : JS.value -> JS.error + string;
      (* SentimentService.formatUpdateMessage: the rendered text (its
         number formatting is floating point), or the TypeError of a
         batch that lacks a field it reads *)
}.

(** ** The store: KEYS, GET, DEL *)

(** Glob matching of a KEYS pattern made of literal characters and [*]. *)
Fixpoint glob (p s : string) : bool :=
  match p with
  | EmptyString => match s with EmptyString => true | _ => false end
  | String "*" p' =>
      (fix star (s : string) : bool :=
         glob p' s || match s with
                      | EmptyString => false
                      | String _ s' => star s'
                      end) s
  | String c p' =>
      match s with
      | EmptyString => false
      | String d s' => Ascii.eqb c d && glob p' s'
      end
  end.

Definition keys_matching (pattern : string) (m : gmap string string) : list string :=
  filter (fun k => glob pattern k = true) (fst <$> map_to_list m).

Definition redis_keys (w : World) (pattern : string) : M (list string) :=
  (emit (RedisKeys pattern) ;;
   await_unit (redis_keys_fault w) ;;
   fun s => ret (keys_matching pattern (redis s)) s)%js.

Definition redis_get (w : World) (key : string) : M (option string) :=
  (emit (RedisGet key) ;;
   await_unit (redis_get_fault w key) ;;
   fun s => ret (redis s !! key) s)%js.

Definition redis_del (w : World) (key : string) : M unit :=
  (emit (RedisDel key) ;;
   await_unit (redis_del_fault w key) ;;
   fun s => Outcome (Normal tt) (with_redis (delete key (redis s)) s) [])%js.

Definition JSON_parse' (w : World) (text : string) : M JS.value :=
  (emit (JsonParse text) ;; await (JSON_parse w text))%js.

(** ** telegramClient.ts: the permission checker *)

Module TelegramClient.

(** [!permissions] for the reply of GET: [null] and the empty string
    are falsy. *)
Definition falsy_string (o : option string) : bool :=
  match o with
  | None => true
  | Some s => String.eqb s ""
  end.

Definition exempt (member : ChatMember) : bool :=
  String.eqb (status member) "creator" || String.eqb (status member) "administrator".

(** [userKey.split(":")[1]]. *)
Definition userIdOf (userKey : string) : option string :=
  JS.split userKey ":" !! 1%nat.

Definition permission_pattern : string := "user:*:permissions".

Definition ban (w : World) (chat : string) (user : option string) : M unit :=
  (emit (BanChatMember chat user) ;; await_unit (banChatMember w chat user))%js.

(** The inner [try] block: membership lookup and removal decision. *)
Definition enforce (w : World) (formattedGroupId : string)
    (userId : option string) (data : JS.value) : M unit :=
  (let* member := (emit (GetChatMember formattedGroupId userId) ;;
                   await (getChatMember w formattedGroupId userId)) in
   log Info ("Member status for " +:+ JS.show userId +:+ ": " +:+ status member) NoArg ;;
   if exempt member then
     log Info ("Skipping check for " +:+ status member +:+ " " +:+ JS.show userId) NoArg ;;
     continue
   else if is_bot member then
     ban w formattedGroupId userId ;;
     log Info ("Removed bot " +:+ JS.show userId +:+ " from the group (non-admin bot)") NoArg ;;
     continue
   else
     let* hasRequiredBalance := await (JS.get data "hasRequiredBalance") in
     if negb (JS.truthy hasRequiredBalance) then
       ban w formattedGroupId userId ;;
       log Info ("Removed user " +:+ JS.show userId
                 +:+ " from the group due to insufficient tokens") NoArg
     else ret tt)%js.

(** The body of [for (const userKey of users)]. *)
Definition processKey (w : World) (formattedGroupId userKey : string) : M unit :=
  try_catch
    (let* permissions := redis_get w userKey in
     if falsy_string permissions then
       log Warn ("No permissions found for " +:+ userKey) NoArg ;;
       continue
     else
       let* data := JSON_parse' w (default "" permissions) in
       let userId := userIdOf userKey in
       log Info ("Processing user " +:+ JS.show userId +:+ " with data:") (ValueArg data) ;;
       try_catch
         (enforce w formattedGroupId userId data)
         (fun error =>
            log Error ("Error checking member " +:+ JS.show userId +:+ ":") (ErrorArg error) ;;
            log Error "Error details:" (ErrorArg error)) ;;
       redis_del w userKey)%js
    (fun error =>
       log Error ("Error processing key " +:+ userKey +:+ ":") (ErrorArg error)).

(** The callback that [setupPermissionChecker] hands to
    [setInterval]: one reconciliation tick. *)
Definition tick (w : World) : M unit :=
  try_catch
    (match PRIVATE_GROUP_ID w with
     | None | Some EmptyString =>
         (* if (!groupId) { warn; return; } *)
         log Warn "PRIVATE_GROUP_ID not set, skipping permission check" NoArg
     | Some groupId =>
         emit (QueueAdd groupId) ;;
         await_unit (queue_add w groupId) ;;
         let* users := redis_keys w permission_pattern in
         log Info ("Checking permissions for " +:+ pretty (length users)
                   +:+ " users in group " +:+ groupId) NoArg ;;
         let formattedGroupId := formatGroupId groupId in
         log Info ("Using formatted group ID: " +:+ formattedGroupId) NoArg ;;
         for_of users (processKey w formattedGroupId)
     end)%js
    (fun error => log Error "Permission check error:" (ErrorArg error)).

End TelegramClient.

(** ** sentiment.ts: the sentiment fan-out *)

Module SentimentService.

Definition channel_name : string := "sentiment:updates".

(** The one field of the service that is data:
    [process.env.PRIVATE_GROUP_ID?.toString() || ''], so the empty
    string stands for "not configured". *)
Record t : Type := { privateGroupId : string }.

Definition make (env_PRIVATE_GROUP_ID : option string) : t :=
  {| privateGroupId := default "" env_PRIVATE_GROUP_ID |}.

Definition broadcastUpdate (w : World) (this : t) (update : JS.value) : M unit :=
  (let* metadata := await (JS.get update "metadata") in
   let* significantTweetsCount := await (JS.get metadata "significantTweetsCount") in
   if JS.strict_eq_zero significantTweetsCount || String.eqb (privateGroupId this) "" then
     ret tt
   else
     let* message := await (formatUpdateMessage w update) in
     try_catch
       (let formattedGroupId := formatGroupId (privateGroupId this) in
        emit (SendMessage formattedGroupId message) ;;
        await_unit (sendMessage w formattedGroupId message))
       (fun error =>
          log Error "Failed to send sentiment update to private group:" (ErrorArg error)))%js.

(** The ["message"] listener installed by [setupSubscriber]. *)
Definition onMessage (w : World) (this : t) (channel message : string) : M unit :=
  if String.eqb channel channel_name then
    try_catch
      (let* update := JSON_parse' w message in
       broadcastUpdate w this update)%js
      (fun error => log Error "Error processing sentiment update:" (ErrorArg error))
  else ret tt.

(** SUBSCRIBE and UNSUBSCRIBE on the subscriber connection, as the
    Redis client carries them out: rejected once the connection is
    closed; otherwise the channel joins, or leaves, the subscription
    set, whether or not it was in it. *)
Definition subscribe (channel : string) : M unit :=
  (emit (Subscribe channel) ;;
   fun s =>
     if subscriber_open s then
       Outcome (Normal tt) (with_subscriber ({[channel]} ∪ subscriber s) s) []
     else
       Outcome (Throw (JS.ExternalError "Connection is closed.")) s [])%js.

Definition unsubscribe (channel : string) : M unit :=
  (emit (Unsubscribe channel) ;;
   fun s =>
     if subscriber_open s then
       Outcome (Normal tt) (with_subscriber (subscriber s ∖ {[channel]}) s) []
     else
       Outcome (Throw (JS.ExternalError "Connection is closed.")) s [])%js.

Definition stop : M unit :=
  (log Info "Stopping sentiment monitoring..." NoArg ;;
   unsubscribe channel_name)%js.

(** The subscription made by [setupSubscriber]; the listener it
    installs is [onMessage]. *)
Definition setupSubscriber : M unit := subscribe channel_name.

End SentimentService.

(** ** Vocabulary of the properties *)

Import TelegramClient SentimentService.

(** The tick gets as far as the key loop: a group is configured and
    both the job submission and the key scan resolve. *)
Definition scan_runs (w : World) (groupId : string) : Prop :=
  PRIVATE_GROUP_ID w = Some groupId ∧ groupId ≠ "" ∧
  queue_add w groupId = None ∧ redis_keys_fault w = None.

(** The record stored under [userKey] is fetched and parses as [data]. *)
Definition record_read (w : World) (s : RedisService) (userKey : string)
    (data : JS.value) : Prop :=
  redis_get_fault w userKey = None ∧
  ∃ text, redis s !! userKey = Some text ∧ text ≠ "" ∧ JSON_parse w text = inr data.

(** [update.metadata.significantTweetsCount]. *)
Definition significantTweetsCount (update : JS.value) : JS.error + JS.value :=
  match JS.get update "metadata" with
  | inl e => inl e
  | inr metadata => JS.get metadata "significantTweetsCount"
  end.

(** The deletion invariant as the specification states it: no scanned
    key survives the tick. *)
Definition all_scanned_keys_deleted (w : World) (s : RedisService) : Prop :=
  ∀ k, k ∈ keys_matching permission_pattern (redis s) →
       redis (final (tick w s)) !! k = None.

(** The lookup-failure rule as the specification states it: the error
    is logged and the record stays in the store. *)
Definition failed_lookup_keeps_record (w : World) (s : RedisService)
    (groupId userKey : string) : Prop :=
  ∀ data e,
    scan_runs w groupId →
    userKey ∈ keys_matching permission_pattern (redis s) →
    record_read w s userKey data →
    getChatMember w (formatGroupId groupId) (userIdOf userKey) = inl e →
    Log Error ("Error checking member " +:+ JS.show (userIdOf userKey) +:+ ":")
        (ErrorArg e) ∈ trace (tick w s) ∧
    is_Some (redis (final (tick w s)) !! userKey).

(** The submission-failure rule as the specification states it: the
    failure is logged and the scan and the per-key processing still
    happen. *)
Definition failed_submission_tick_proceeds (w : World) (s : RedisService)
    (groupId : string) : Prop :=
  ∀ e,
    PRIVATE_GROUP_ID w = Some groupId → groupId ≠ "" →
    queue_add w groupId = Some e →
    Log Error "Permission check error:" (ErrorArg e) ∈ trace (tick w s) ∧
    RedisKeys permission_pattern ∈ trace (tick w s) ∧
    ∀ k, k ∈ keys_matching permission_pattern (redis s) →
         RedisGet k ∈ trace (tick w s).

(** The idempotence of [stop] as the specification states it: a
    second call in succession makes no error and changes nothing, and a
    call made when the channel is no longer subscribed makes no error
    and changes nothing either. *)
Definition stop_is_idempotent (s : RedisService) : Prop :=
  res (stop (final (stop s))) = Normal tt ∧
  final (stop (final (stop s))) = final (stop s) ∧
  (channel_name ∉ subscriber s →
   res (stop s) = Normal tt ∧ final (stop s) = s).

(** ** Concrete worlds for the examples *)

Definition quoted (s : string) : string :=
  String "034" (s +:+ String "034" EmptyString).

(** The JSON text [{"hasRequiredBalance":b}]. *)
Definition record_text (hasRequiredBalance : bool) : string :=
  "{" +:+ quoted "hasRequiredBalance" +:+ ":"
      +:+ (if hasRequiredBalance then "true" else "false") +:+ "}".

(** The JSON text [{"metadata":{"significantTweetsCount":0},"tweets":[]}]. *)
Definition empty_batch_text : string :=
  "{" +:+ quoted "metadata" +:+ ":{" +:+ quoted "significantTweetsCount" +:+ ":0},"
      +:+ quoted "tweets" +:+ ":[]}".

Definition empty_batch : JS.value :=
  JS.Obj [("metadata", JS.Obj [("significantTweetsCount", JS.Num 0%float)]);
          ("tweets", JS.Arr [])].

(** [JSON.parse] on the texts the examples use: the three well-formed
    ones above; the examples pass it no other well-formed text. *)
Definition parse_example (text : string) : JS.error + JS.value :=
  if String.eqb text (record_text false) then
    inr (JS.Obj [("hasRequiredBalance", JS.Bool false)])
  else if String.eqb text (record_text true) then
    inr (JS.Obj [("hasRequiredBalance", JS.Bool true)])
  else if String.eqb text empty_batch_text then inr empty_batch
  else inl JS.SyntaxError.

(** Group "123456", a healthy store, and the given replies of the
    queue, of the membership lookup and of the removal call. *)
Definition example_world (add : option JS.error)
    (lookup : option string -> JS.error + ChatMember)
    (removal : option JS.error) : World :=
  {| PRIVATE_GROUP_ID := Some "123456";
     queue_add := fun _ => add;
     redis_keys_fault := None;
     redis_get_fault := fun _ => None;
     redis_del_fault := fun _ => None;
     JSON_parse := parse_example;
     getChatMember := fun _ user => lookup user;
     banChatMember := fun _ _ => removal;
     sendMessage := fun _ _ => None;
     formatUpdateMessage := fun _ => inr "update" |}.

Definition example_store (records : list (string * string)) : RedisService :=
  {| redis := list_to_map records;
     subscriber_open := true;
     subscriber := {[ SentimentService.channel_name ]} |}.

Definition as_member (role : string) (bot : bool) : option string -> JS.error + ChatMember :=
  fun _ => inr {| status := role; is_bot := bot |}.

Definition unreachable : option string -> JS.error + ChatMember :=
  fun _ => inl (JS.ExternalError "ETIMEDOUT").

(** A group with an administrator (333), a bot that is a plain member
    (777) and plain members otherwise, and three records waiting. *)
Definition mixed_members : option string -> JS.error + ChatMember :=
  fun user =>
    if decide (user = Some "333") then
      inr {| status := "administrator"; is_bot := false |}
    else if decide (user = Some "777") then
      inr {| status := "member"; is_bot := true |}
    else inr {| status := "member"; is_bot := false |}.

Definition waiting_records : list (string * string) :=
  [("user:111:permissions", record_text false);
   ("user:333:permissions", record_text false);
   ("user:777:permissions", record_text true)].

(** ** Counting the calls of a trace *)

Fixpoint count (p : Event -> bool) (t : list Event) : nat :=
  match t with
  | [] => 0
  | ev :: t' => (if p ev then 1 else 0) + count p t'
  end.

Definition is_lookup (ev : Event) : bool :=
  match ev with GetChatMember _ _ => true | _ => false end.

Definition is_ban (ev : Event) : bool :=
  match ev with BanChatMember _ _ => true | _ => false end.

Definition is_del (ev : Event) : bool :=
  match ev with RedisDel _ => true | _ => false end.

(** The keys of the GET calls of a trace, in the order of the calls. *)
Fixpoint fetched_keys (t : list Event) : list string :=
  match t with
  | [] => []
  | RedisGet k :: t' => k :: fetched_keys t'
  | _ :: t' => fetched_keys t'
  end.

Definition is_send (ev : Event) : bool :=
  match ev with SendMessage _ _ => true | _ => false end.

(** [has_colon s]: the character ":" occurs in [s]. *)
Fixpoint has_colon (s : string) : bool :=
  match s with
  | EmptyString => false
  | String c s' => Ascii.eqb c ":" || has_colon s'
  end.

(** A batch with two significant tweets, as JSON text and parsed:
    [{"metadata":{"significantTweetsCount":2}}]. *)
Definition busy_batch_text : string :=
  "{" +:+ quoted "metadata" +:+ ":{" +:+ quoted "significantTweetsCount" +:+ ":2}}".

Definition busy_batch : JS.value :=
  JS.Obj [("metadata", JS.Obj [("significantTweetsCount", JS.Num 2%float)])].

(** A world for the fan-out examples: [JSON.parse] knows the two batch
    texts, the renderer and the delivery answer as given. *)
Definition fanout_world (render : JS.value -> JS.error + string)
    (delivery : option JS.error) : World :=
  {| PRIVATE_GROUP_ID := Some "123456";
     queue_add := fun _ => None;
     redis_keys_fault := None;
     redis_get_fault := fun _ => None;
     redis_del_fault := fun _ => None;
     JSON_parse := fun text =>
       if String.eqb text busy_batch_text then inr busy_batch
       else parse_example text;
     getChatMember := fun _ _ => inl (JS.ExternalError "unused");
     banChatMember := fun _ _ => None;
     sendMessage := fun _ _ => delivery;
     formatUpdateMessage := render |}.

(** ** Handlers that talk to Telegram and to the backend

    The message listener and [stop] of telegramClient.ts, and the
    [start] command of commands.ts.  They use neither the store nor the
    subscription, so a run is a completion and the list of calls made. *)

Module Bot.

Inductive Call : Type :=
| Logged (l : level) (msg : string) (arg : log_arg)
| GetOrCreateRecommender (userId username : string)
| HandleMessage
| Reply (text : string) (button : option (string * string))
| UnbanChatMember (chat : string) (user : Z)
| CreateChatInviteLink (chat name : string) (expire_date : Z)
| AskServer (sessionId inviteUrl telegramId : string)
| ClearInterval
| BotStop
| SentimentStop.

(** How a function body ends: normally, by [return], or by a throw. *)
Inductive ending (A : Type) : Type :=
| Done (a : A)
| Returned
| Thrown (e : JS.error).
Arguments Done {A} a.
Arguments Returned {A}.
Arguments Thrown {A} e.

Record run (A : Type) : Type := Run {
  ended : ending A;
  calls : list Call;
}.
Arguments Run {A} _ _.
Arguments ended {A} _.
Arguments calls {A} _.

Definition pure {A} (a : A) : run A := Run (Done a) [].

Definition and_then {A B} (m : run A) (f : A -> run B) : run B :=
  match m with
  | Run (Done a) t =>
      match f a with
      | Run r t' => Run r (t ++ t')
      end
  | Run Returned t => Run Returned t
  | Run (Thrown e) t => Run (Thrown e) t
  end.

Definition call (c : Call) : run unit := Run (Done tt) [c].
Definition raise {A} (e : JS.error) : run A := Run (Thrown e) [].
Definition return_ {A} : run A := Run Returned [].

(** [try { m } catch (error) { h error }]; a [return] passes through. *)
Definition try_ {A} (m : run A) (h : JS.error -> run A) : run A :=
  match m with
  | Run (Thrown e) t =>
      match h e with
      | Run r t' => Run r (t ++ t')
      end
  | _ => m
  end.

(** The body of an [async] function: a [return] resolves it. *)
Definition function_ (m : run unit) : run unit :=
  match m with
  | Run Returned t => Run (Done tt) t
  | _ => m
  end.

Definition awaited (c : Call) (r : option JS.error) : run unit :=
  match r with
  | Some e => Run (Thrown e) [c]
  | None => Run (Done tt) [c]
  end.

Declare Scope bot_scope.
Delimit Scope bot_scope with bot.
Bind Scope bot_scope with run.
Local Open Scope bot_scope.
Notation "'let*' x ':=' m 'in' f" := (and_then m (fun x => f))
  (at level 10, x name, m at level 100, f at level 200) : bot_scope.
Notation "m ;; f" := (and_then m (fun _ => f))
  (at level 100, f at level 200, right associativity) : bot_scope.

(** [ctx.from] and the few fields of [ctx] the handlers read. *)
Record User : Type := {
  id : Z;
  username : option string;
  first_name : option string;
}.

Record Ctx : Type := {
  from : option User;
  chat_is_private : bool;        (* ctx.chat?.type === "private" *)
  bot_username : option string;  (* ctx.botInfo?.username *)
}.

(** What the handlers get from the settings and from their
    collaborators. *)
Record Env : Type := {
  tgTrader : bool;               (* truthiness of the TG_TRADER setting *)
  getOrCreateRecommenderInBe : string -> string -> option JS.error;
  handleMessage : option JS.error;
  reply : string -> option JS.error;
  uuidv4 : string;
  webAppUrl : string;            (* WEBAPP_URL as the template prints it *)
  privateGroupId : option string;
  unbanChatMember : string -> Z -> option JS.error;
  createChatInviteLink : string -> string -> Z -> JS.error + string;
  askServer : string -> string -> string -> option JS.error;
  now : Z;                       (* Date.now(), in milliseconds *)
  bot_stop : option JS.error;
  sentimentService : option (option JS.error);
      (* the field set by initializeBot, and what its stop() settles with *)
}.

(** [ctx.from?.id.toString()]. *)
Definition userIdOfCtx (ctx : Ctx) : option string :=
  (fun u => pretty (id u)) <$> from ctx.

Definition truthy_string (o : option string) : option string :=
  match o with
  | Some EmptyString | None => None
  | Some s => Some s
  end.

(** [ctx.from?.username || ctx.from?.first_name || "Unknown"]. *)
Definition usernameOfCtx (ctx : Ctx) : string :=
  match from ctx with
  | None => "Unknown"
  | Some u =>
      match truthy_string (username u) with
      | Some s => s
      | None => default "Unknown" (truthy_string (first_name u))
      end
  end.

(** The [bot.on("message", ...)] listener of telegramClient.ts. *)
Definition onMessage (env : Env) (ctx : Ctx) : run unit :=
  function_
    (try_
       ((if tgTrader env then
           let userId := userIdOfCtx ctx in
           let username := usernameOfCtx ctx in
           match userId with
           | None =>
               call (Logged Warn "Received message from a user without an ID." NoArg) ;;
               return_
           | Some userId =>
               try_
                 (awaited (GetOrCreateRecommender userId username)
                          (getOrCreateRecommenderInBe env userId username))
                 (fun error =>
                    call (Logged Error "Error getting or creating recommender in backend"
                                 (ErrorArg error)))
           end
         else pure tt) ;;
        awaited HandleMessage (handleMessage env))
       (fun error =>
          call (Logged Error "❌ Error handling message:" (ErrorArg error)) ;;
          awaited (Reply "An error occurred while processing your message." None)
                  (reply env "An error occurred while processing your message.")))%bot.

(** [TelegramClient.stop]. *)
Definition stop (env : Env) : run unit :=
  (call (Logged Info "Stopping Telegram bot..." NoArg) ;;
   call ClearInterval ;;
   awaited BotStop (bot_stop env) ;;
   match sentimentService env with
   | None => raise JS.TypeError
   | Some settled => awaited SentimentStop settled
   end ;;
   call (Logged Info "Telegram bot stopped" NoArg))%bot.

(** The invite-link block of the [start] command: the link, or the
    empty string the variable was initialised with.  [user] is
    [parseInt(userId)], the sender's id again. *)
Definition inviteLinkFor (env : Env) (userId username : string) (user : Z) : run string :=
  try_
    (match truthy_string (privateGroupId env) with
     | Some privateGroupId =>
         let formattedGroupId := formatGroupId privateGroupId in
         awaited (UnbanChatMember formattedGroupId user)
                 (unbanChatMember env formattedGroupId user) ;;
         let name := username +:+ " (" +:+ userId +:+ ")" in
         let expire_date := (now env `div` 1000 + 3600)%Z in
         call (CreateChatInviteLink formattedGroupId name expire_date) ;;
         match createChatInviteLink env formattedGroupId name expire_date with
         | inl e => raise e
         | inr invite_link => pure invite_link
         end
     | None => pure ""
     end)
    (fun error =>
       call (Logged Error "Error generating invite link for private group:"
                    (ErrorArg error)) ;;
       pure "")%bot.

(** The handler of the [start] command (commands.ts). *)
Definition start (env : Env) (ctx : Ctx) : run unit :=
  function_
    (try_
       (match from ctx with
        | None =>
            awaited (Reply "Could not identify your user ID. Please try again." None)
                    (reply env "Could not identify your user ID. Please try again.") ;;
            return_
        | Some user =>
            let userId := pretty (id user) in
            let username := usernameOfCtx ctx in
            let sessionId := uuidv4 env in
            (if chat_is_private ctx then
               awaited
                 (Reply "Please connect your wallet to complete verification:"
                    (Some ("Connect Wallet",
                           webAppUrl env +:+ "/verify?session=" +:+ sessionId)))
                 (reply env "Please connect your wallet to complete verification:")
             else
               awaited
                 (Reply "Please start a private chat with me first by clicking the button below."
                    (Some ("Start Private Chat",
                           "https://t.me/" +:+ JS.show (bot_username ctx))))
                 (reply env
                    "Please start a private chat with me first by clicking the button below.")) ;;
            let* inviteLink := inviteLinkFor env userId username (id user) in
            try_
              (awaited (AskServer sessionId inviteLink userId)
                       (askServer env sessionId inviteLink userId))
              (fun error =>
                 call (Logged Error "Error checking verification status:"
                              (ErrorArg error))) ;;
            call (Logged Info ("Session created for user " +:+ username
                               +:+ " (" +:+ userId +:+ ")") NoArg)
        end)
       (fun error =>
          call (Logged Error "Error in verify command:" (ErrorArg error)) ;;
          awaited (Reply "An error occurred. Please try again later." None)
                  (reply env "An error occurred. Please try again later.")))%bot.

Fixpoint count (p : Call -> bool) (t : list Call) : nat :=
  match t with
  | [] => 0
  | c :: t' => (if p c then 1 else 0) + count p t'
  end.

Definition is_HandleMessage (c : Call) : bool :=
  match c with HandleMessage => true | _ => false end.

Definition is_AskServer (c : Call) : bool :=
  match c with AskServer _ _ _ => true | _ => false end.

End Bot.

(** ** sentiment.ts: rendering a batch

    [SentimentService.formatUpdateMessage], with the two coercions it
    relies on left to the JavaScript engine: [ToString], which a
    template literal applies to an interpolated value, and [percent] for
    [(v * 100).toFixed(1)].  Both can throw on an object that carries its
    own [toString] or [valueOf]. *)

Module Render.

Definition or_throw {A B} (r : JS.error + A) (f : A -> JS.error + B) : JS.error + B :=
  match r with
  | inl e => inl e
  | inr a => f a
  end.

Declare Scope render_scope.
Delimit Scope render_scope with render.
Notation "'let?' x ':=' r 'in' f" := (or_throw r (fun x => f))
  (at level 10, x name, r at level 100, f at level 200) : render_scope.
Local Open Scope render_scope.

Definition nl : string := String "010" EmptyString.

(** [v.slice(0, 3).map(...)] and [v.map(...)] need [v] to be an array:
    on a string [map] is missing, on anything else so is [slice]. *)
Definition as_array (v : JS.value) : JS.error + list JS.value :=
  match v with
  | JS.Arr items => inr items
  | _ => inl JS.TypeError
  end.

(** [items.map(f)] where [f] can throw. *)
Fixpoint map_or_throw {A B} (f : A -> JS.error + B) (items : list A)
    : JS.error + list B :=
  match items with
  | [] => inr []
  | x :: items' =>
      let? y := f x in
      let? ys := map_or_throw f items' in
      inr (y :: ys)
  end.

(** [Array.prototype.join] on strings. *)
Fixpoint join (sep : string) (items : list string) : string :=
  match items with
  | [] => ""
  | [x] => x
  | x :: items' => x +:+ sep +:+ join sep items'
  end.

Section Coercions.
Variable ToString : JS.value -> JS.error + string.
Variable percent : JS.value -> JS.error + string.

(** [typeof topic === 'object' && topic !== null && topic.topic
     ? `${topic.topic} (${topic.count})` : 'Unknown']. *)
Definition renderTopic (topic : JS.value) : JS.error + string :=
  match topic with
  | JS.Arr _ | JS.Obj _ =>
      let? name := JS.get topic "topic" in
      if JS.truthy name then
        let? n := ToString name in
        let? count := JS.get topic "count" in
        let? c := ToString count in
        inr (n +:+ " (" +:+ c +:+ ")")
      else inr "Unknown"
  | _ => inr "Unknown"
  end.

Definition header (update : JS.value) : JS.error + string :=
  let? metadata := JS.get update "metadata" in
  let? totalTweetsAnalyzed := JS.get metadata "totalTweetsAnalyzed" in
  let? analyzed := ToString totalTweetsAnalyzed in
  let? metadata := JS.get update "metadata" in
  let? significantTweetsCount := JS.get metadata "significantTweetsCount" in
  let? found := ToString significantTweetsCount in
  let? statistics := JS.get update "statistics" in
  let? averageScore := JS.get statistics "averageScore" in
  let? sentiment := percent averageScore in
  let? statistics := JS.get update "statistics" in
  let? averageCredibility := JS.get statistics "averageCredibility" in
  let? credibility := percent averageCredibility in
  let? statistics := JS.get update "statistics" in
  let? topTopics := JS.get statistics "topTopics" in
  let? sliced := as_array topTopics in
  let? topics := map_or_throw renderTopic (take 3 sliced) in
  inr ("🔥 Sentiment Analysis Update" +:+ nl +:+ nl +:+
       "Analyzed " +:+ analyzed +:+ " tweets" +:+ nl +:+
       "Found " +:+ found +:+ " significant tweets" +:+ nl +:+ nl +:+
       "📊 Statistics:" +:+ nl +:+
       "Average Sentiment: " +:+ sentiment +:+ "%" +:+ nl +:+
       "Average Credibility: " +:+ credibility +:+ "%" +:+ nl +:+ nl +:+
       "🔝 Top Topics: " +:+ join ", " topics +:+ nl +:+ nl +:+
       "Significant Tweets:" +:+ nl +:+ nl).

Definition renderTweet (tweet : JS.value) : JS.error + string :=
  let? username := JS.get tweet "username" in
  let? name := ToString username in
  let? text := JS.get tweet "text" in
  let? body := ToString text in
  let? analysis := JS.get tweet "analysis" in
  let? score := JS.get analysis "score" in
  let? sentiment := percent score in
  let? analysis := JS.get tweet "analysis" in
  let? label0 := JS.get analysis "sentiment" in
  let? label := ToString label0 in
  let? analysis := JS.get tweet "analysis" in
  let? credibilityScore := JS.get analysis "credibilityScore" in
  let? credibility := percent credibilityScore in
  let? engagement := JS.get tweet "engagement" in
  let? likes0 := JS.get engagement "likes" in
  let? likes := ToString likes0 in
  let? engagement := JS.get tweet "engagement" in
  let? retweets0 := JS.get engagement "retweets" in
  let? retweets := ToString retweets0 in
  let? engagement := JS.get tweet "engagement" in
  let? replies0 := JS.get engagement "replies" in
  let? replies := ToString replies0 in
  let? engagement := JS.get tweet "engagement" in
  let? views0 := JS.get engagement "views" in
  let? views := ToString views0 in
  inr ("<b>@" +:+ name +:+ "</b>" +:+ nl +:+
       body +:+ nl +:+ nl +:+
       "Sentiment: " +:+ sentiment +:+ "% (" +:+ label +:+ ")" +:+ nl +:+
       "Credibility: " +:+ credibility +:+ "%" +:+ nl +:+ nl +:+
       "👍 " +:+ likes +:+ " 🔄 " +:+ retweets +:+ " 💬 " +:+ replies
       +:+ " 👀 " +:+ views).

Definition divider : string := nl +:+ nl +:+ "━━━━━━━━━━" +:+ nl +:+ nl.

Definition formatUpdateMessage (update : JS.value) : JS.error + string :=
  let? head := header update in
  let? tweets0 := JS.get update "tweets" in
  let? items := as_array tweets0 in
  let? blocks := map_or_throw renderTweet items in
  inr (head +:+ join divider blocks).

End Coercions.

(** The shape a batch must have to be rendered. *)
Definition nullish (v : JS.value) : bool :=
  match v with
  | JS.Undefined | JS.Null => true
  | _ => false
  end.

Definition field (v : JS.value) (name : string) : JS.value :=
  match JS.get v name with
  | inr x => x
  | inl _ => JS.Undefined
  end.

Definition is_array (v : JS.value) : bool :=
  match v with
  | JS.Arr _ => true
  | _ => false
  end.

Definition tweet_ok (tweet : JS.value) : bool :=
  negb (nullish tweet) && negb (nullish (field tweet "analysis"))
  && negb (nullish (field tweet "engagement")).

Definition renderable (update : JS.value) : bool :=
  negb (nullish update) && negb (nullish (field update "metadata"))
  && negb (nullish (field update "statistics"))
  && is_array (field (field update "statistics") "topTopics")
  && match field update "tweets" with
     | JS.Arr tweets => forallb tweet_ok tweets
     | _ => false
     end.

End Render.

(** The batch of Scenario D, parsed: ten tweets analysed, two of them
    significant, one topic "X" counted five times, no tweet listed. *)
Definition scenario_D_batch : JS.value :=
  JS.Obj [("metadata", JS.Obj [("totalTweetsAnalyzed", JS.Num 10%float);
                               ("significantTweetsCount", JS.Num 2%float)]);
          ("statistics", JS.Obj [("averageScore", JS.Num 0.5%float);
                                 ("averageCredibility", JS.Num 0.75%float);
                                 ("topTopics",
                                  JS.Arr [JS.Obj [("topic", JS.Str "X");
                                                  ("count", JS.Num 5%float)]])]);
          ("tweets", JS.Arr [])].

(** The engine's [ToString] and [(v * 100).toFixed(1)] on the values
    that batch holds: strings, and the numbers 2, 5 and 10, respectively
    0.5 and 0.75.  The examples pass them nothing else. *)
Definition ToString_example (v : JS.value) : JS.error + string :=
  match v with
  | JS.Str s => inr s
  | JS.Num x =>
      inr (if PrimFloat.eqb x 2%float then "2"
           else if PrimFloat.eqb x 5%float then "5"
           else "10")
  | _ => inr "undefined"
  end.

Definition percent_example (v : JS.value) : JS.error + string :=
  match v with
  | JS.Num x => inr (if PrimFloat.eqb x 0.5%float then "50.0" else "75.0")
  | _ => inr "NaN"
  end.

(** * Properties *)

(** ** Reading outcomes *)

Lemma res_after {A} t (o : outcome A) : res (after t o) = res o.
Proof. by destruct o. Qed.

Lemma final_after {A} t (o : outcome A) : final (after t o) = final o.
Proof. by destruct o. Qed.

Lemma trace_after {A} t (o : outcome A) : trace (after t o) = (t ++ trace o)%list.
Proof. by destruct o. Qed.

Lemma outcome_eta {A} (o : outcome A) : o = Outcome (res o) (final o) (trace o).
Proof. by destruct o. Qed.

Lemma with_redis_lookup m s k : redis (with_redis m s) !! k = m !! k.
Proof. done. Qed.

(** Unfold the effect layer of an expression built from the oracles. *)
Ltac unfold_ops :=
  cbv [processKey enforce ban redis_get redis_del redis_keys JSON_parse' log
       try_catch bind emit await await_unit throw continue ret after].

(** Case on the innermost scrutinee: an oracle's reply or a test. *)
Ltac split_match :=
  match goal with
  | |- context [match ?x with _ => _ end] =>
      lazymatch x with
      | context [match _ with _ => _ end] => fail
      | _ => destruct x eqn:?
      end
  end.

Ltac in_trace :=
  repeat match goal with
    | H : _ ∈ [] |- _ => by apply elem_of_nil in H
    | H : _ ∈ _ :: _ |- _ => apply elem_of_cons in H as [H | H]
    end.

(** Membership of an event in an explicit trace. *)
Ltac trace_mem :=
  repeat first [apply list_elem_of_here | apply list_elem_of_further].

Ltac crunch :=
  unfold_ops;
  repeat (split_match; cbn [res final trace app] in *; simplify_eq; auto).

(** ** One key *)

Section OneKey.
Context (w : World) (g k : string) (s : RedisService).

Lemma processKey_no_throw e : res (processKey w g k s) ≠ Throw e.
Proof. crunch. Qed.

(** A key's processing changes nothing in the store but, possibly,
    the key itself. *)
Lemma processKey_store :
  final (processKey w g k s) = s ∨
  final (processKey w g k s) = with_redis (delete k (redis s)) s.
Proof. crunch. Qed.

Lemma processKey_lookup_other k' :
  k' ≠ k → redis (final (processKey w g k s)) !! k' = redis s !! k'.
Proof.
  intros Hne. destruct processKey_store as [-> | ->]; [done |].
  rewrite with_redis_lookup. by apply lookup_delete_ne.
Qed.

Lemma processKey_lookup_None k' :
  redis s !! k' = None → redis (final (processKey w g k s)) !! k' = None.
Proof.
  intros Hk. destruct processKey_store as [-> | ->]; [done |].
  rewrite with_redis_lookup, lookup_delete. by case_decide.
Qed.

Lemma processKey_fetches : RedisGet k ∈ trace (processKey w g k s).
Proof. crunch; trace_mem. Qed.

(** Every removal call follows a lookup that reported a member
    outside the exempt roles, and targets that member. *)
Lemma processKey_ban_sound chat user :
  BanChatMember chat user ∈ trace (processKey w g k s) →
  chat = g ∧ user = userIdOf k ∧
  ∃ m, getChatMember w g (userIdOf k) = inr m ∧ exempt m = false.
Proof. crunch; intros H; in_trace; simplify_eq; eauto. Qed.

(** The four hypotheses under which the inner [try] is entered. *)
Context (text : string) (data : JS.value).
Hypothesis Hget : redis_get_fault w k = None.
Hypothesis Hrec : redis s !! k = Some text.
Hypothesis Hne : text ≠ "".

Lemma falsy_string_Some : falsy_string (Some text) = false.
Proof. cbn. by apply String.eqb_neq. Qed.

Lemma processKey_malformed e :
  JSON_parse w text = inl e →
  processKey w g k s =
    Outcome (Normal tt) s
      [RedisGet k; JsonParse text;
       Log Error ("Error processing key " +:+ k +:+ ":") (ErrorArg e)].
Proof.
  intros Hp. unfold_ops. rewrite Hget, Hrec, falsy_string_Some. cbn.
  by rewrite Hp.
Qed.

Hypothesis Hparse : JSON_parse w text = inr data.

(** The iterations that end by [continue] inside the inner [try]: an
    exempt member, and a bot whose removal went through.  The deletion
    step is not reached. *)
Lemma processKey_continues m :
  getChatMember w g (userIdOf k) = inr m →
  exempt m = true ∨
  (exempt m = false ∧ is_bot m = true ∧ banChatMember w g (userIdOf k) = None) →
  res (processKey w g k s) = Continue ∧ final (processKey w g k s) = s.
Proof.
  intros Hm Hcase. unfold_ops.
  rewrite Hget, Hrec, falsy_string_Some. cbn. rewrite Hparse, Hm.
  destruct Hcase as [-> | (-> & -> & ->)]; by cbn.
Qed.

Lemma processKey_bot_banned m :
  getChatMember w g (userIdOf k) = inr m →
  exempt m = false → is_bot m = true →
  BanChatMember g (userIdOf k) ∈ trace (processKey w g k s).
Proof.
  intros Hm Hex Hbot. unfold_ops.
  rewrite Hget, Hrec, falsy_string_Some. cbn. rewrite Hparse, Hm, Hex, Hbot.
  repeat (split_match; cbn [res final trace app] in *); trace_mem.
Qed.

Lemma processKey_lookup_failed e :
  getChatMember w g (userIdOf k) = inl e →
  redis_del_fault w k = None →
  processKey w g k s =
    Outcome (Normal tt) (with_redis (delete k (redis s)) s)
      [RedisGet k; JsonParse text;
       Log Info ("Processing user " +:+ JS.show (userIdOf k) +:+ " with data:")
           (ValueArg data);
       GetChatMember g (userIdOf k);
       Log Error ("Error checking member " +:+ JS.show (userIdOf k) +:+ ":")
           (ErrorArg e);
       Log Error "Error details:" (ErrorArg e);
       RedisDel k].
Proof.
  intros Hm Hdel. unfold_ops.
  rewrite Hget, Hrec, falsy_string_Some. cbn. by rewrite Hparse, Hm, Hdel.
Qed.

(** The deletion step is reached whenever the lookup fails or reports
    a member that is neither exempt nor a bot, whatever the removal
    call does. *)
Lemma processKey_deletes :
  (∃ e, getChatMember w g (userIdOf k) = inl e) ∨
  (∃ m, getChatMember w g (userIdOf k) = inr m ∧
        exempt m = false ∧ is_bot m = false) →
  redis_del_fault w k = None →
  final (processKey w g k s) = with_redis (delete k (redis s)) s.
Proof.
  intros Hm Hdel. unfold_ops.
  rewrite Hget, Hrec, falsy_string_Some. cbn. rewrite Hparse.
  destruct Hm as [[e ->] | (m & -> & -> & ->)]; cbn; rewrite ?Hdel; [done |].
  repeat (split_match; cbn [res final trace app] in *; simplify_eq; auto).
Qed.

End OneKey.

(** ** The key loop *)

Section Loop.
Context (w : World) (g : string).

Lemma for_of_processKey_cons k users s :
  for_of (k :: users) (processKey w g) s =
    after (trace (processKey w g k s))
          (for_of users (processKey w g) (final (processKey w g k s))).
Proof.
  cbn [for_of]. pose proof (processKey_no_throw w g k s) as Hk.
  destruct (processKey w g k s) as [[[] | | e] s' t]; cbn in *; try done.
  by destruct (Hk e).
Qed.

(** No key's failure leaves the loop. *)
Lemma loop_completes users s :
  res (for_of users (processKey w g) s) = Normal tt.
Proof.
  revert s. induction users as [| k users IH]; intros s; [done |].
  by rewrite for_of_processKey_cons, res_after.
Qed.

Lemma loop_lookup_None users s k :
  redis s !! k = None →
  redis (final (for_of users (processKey w g) s)) !! k = None.
Proof.
  revert s. induction users as [| k' users IH]; intros s Hk; [done |].
  rewrite for_of_processKey_cons, final_after.
  by apply IH, processKey_lookup_None.
Qed.

Lemma loop_lookup_other users s k :
  k ∉ users →
  redis (final (for_of users (processKey w g) s)) !! k = redis s !! k.
Proof.
  revert s. induction users as [| k' users IH]; intros s Hk; [done |].
  apply not_elem_of_cons in Hk as [Hne Hk].
  rewrite for_of_processKey_cons, final_after, IH by done.
  by apply processKey_lookup_other.
Qed.

(** Every key of the list gets its turn. *)
Lemma loop_fetches_all users s k :
  k ∈ users → RedisGet k ∈ trace (for_of users (processKey w g) s).
Proof.
  revert s. induction users as [| k' users IH]; intros s Hk.
  - by apply elem_of_nil in Hk.
  - rewrite for_of_processKey_cons, trace_after. apply elem_of_app.
    apply elem_of_cons in Hk as [-> | Hk]; [left | right; by apply IH].
    apply processKey_fetches.
Qed.

Lemma loop_ban_sound users s chat user :
  BanChatMember chat user ∈ trace (for_of users (processKey w g) s) →
  chat = g ∧ ∃ m, getChatMember w g user = inr m ∧ exempt m = false.
Proof.
  revert s. induction users as [| k users IH]; intros s Hin.
  - by apply elem_of_nil in Hin.
  - rewrite for_of_processKey_cons, trace_after in Hin.
    apply elem_of_app in Hin as [Hin | Hin]; [| by eapply IH].
    apply processKey_ban_sound in Hin as (-> & -> & m & Hm & Hex). eauto.
Qed.

(** A key of the list is reached with its record as it was at the
    start of the loop: nothing before its first turn touches it. *)
Lemma loop_bot_banned users s k text data m :
  k ∈ users →
  redis_get_fault w k = None → redis s !! k = Some text → text ≠ "" →
  JSON_parse w text = inr data →
  getChatMember w g (userIdOf k) = inr m →
  exempt m = false → is_bot m = true →
  BanChatMember g (userIdOf k) ∈ trace (for_of users (processKey w g) s).
Proof.
  intros Hk Hget Hrec Hne Hparse Hm Hex Hbot. revert s Hrec.
  induction users as [| k' users IH]; intros s Hrec.
  - by apply elem_of_nil in Hk.
  - rewrite for_of_processKey_cons, trace_after. apply elem_of_app.
    destruct (decide (k = k')) as [<- | Hkk'].
    + left. by eapply processKey_bot_banned.
    + right. apply elem_of_cons in Hk as [? | Hk]; [done |].
      apply IH; [done |]. by rewrite processKey_lookup_other.
Qed.

Lemma loop_deletes users s k text data :
  k ∈ users →
  redis_get_fault w k = None → redis s !! k = Some text → text ≠ "" →
  JSON_parse w text = inr data →
  (∃ e, getChatMember w g (userIdOf k) = inl e) ∨
  (∃ m, getChatMember w g (userIdOf k) = inr m ∧
        exempt m = false ∧ is_bot m = false) →
  redis_del_fault w k = None →
  redis (final (for_of users (processKey w g) s)) !! k = None.
Proof.
  intros Hk Hget Hrec Hne Hparse Hm Hdel. revert s Hrec.
  induction users as [| k' users IH]; intros s Hrec.
  - by apply elem_of_nil in Hk.
  - rewrite for_of_processKey_cons, final_after.
    destruct (decide (k = k')) as [<- | Hkk'].
    + apply loop_lookup_None.
      erewrite processKey_deletes by done.
      rewrite with_redis_lookup. apply lookup_delete_eq.
    + apply elem_of_cons in Hk as [? | Hk]; [done |].
      apply IH; [done |]. by rewrite processKey_lookup_other.
Qed.

End Loop.

(** ** The tick *)

Lemma elem_of_keys_matching pattern (m : gmap string string) k :
  k ∈ keys_matching pattern m ↔ glob pattern k = true ∧ is_Some (m !! k).
Proof.
  unfold keys_matching. rewrite list_elem_of_filter, list_elem_of_fmap.
  split.
  - intros [Hg ([k' v] & -> & Hin)]. split; [done |].
    apply elem_of_map_to_list in Hin. by exists v.
  - intros [Hg [v Hv]]. split; [done |].
    exists (k, v). split; [done |]. by apply elem_of_map_to_list.
Qed.

(** With a group configured and the queue and the scan answering, the
    tick is its four opening events followed by the key loop. *)
Lemma tick_scan w s g :
  scan_runs w g →
  tick w s =
    after [QueueAdd g; RedisKeys permission_pattern;
           Log Info ("Checking permissions for "
                     +:+ pretty (length (keys_matching permission_pattern (redis s)))
                     +:+ " users in group " +:+ g) NoArg;
           Log Info ("Using formatted group ID: " +:+ formatGroupId g) NoArg]
          (for_of (keys_matching permission_pattern (redis s))
                  (processKey w (formatGroupId g)) s).
Proof.
  intros (Hg & Hne & Hq & Hk). unfold tick. rewrite Hg.
  destruct g as [| c g']; [done |].
  cbv [try_catch bind emit await_unit ret redis_keys log after throw].
  rewrite Hq, Hk. cbn.
  pose proof (loop_completes w (formatGroupId (String c g'))
                (keys_matching permission_pattern (redis s)) s) as Hl.
  destruct (for_of _ _ s) as [r s' t]. cbn in Hl. by subst r.
Qed.

(** The tick either runs the loop, or stops before the scan replies
    and leaves only these events behind. *)
Lemma tick_cases w s :
  (∃ g, scan_runs w g) ∨
  (final (tick w s) = s ∧ res (tick w s) = Normal tt ∧
   ∀ ev, ev ∈ trace (tick w s) →
         match ev with
         | Log _ _ _ | QueueAdd _ | RedisKeys _ => True
         | _ => False
         end).
Proof.
  unfold scan_runs, tick.
  destruct (PRIVATE_GROUP_ID w) as [[| c g'] |] eqn:Hg.
  - right. cbn. repeat split. intros ev H. in_trace. by subst.
  - destruct (queue_add w (String c g')) as [e |] eqn:Hq;
      [| destruct (redis_keys_fault w) as [e |] eqn:Hk].
    + right.
      cbv [try_catch bind emit await_unit ret redis_keys log after throw].
      rewrite ?Hq, ?Hk. cbn. repeat split. intros ev H. in_trace; by subst.
    + right.
      cbv [try_catch bind emit await_unit ret redis_keys log after throw].
      rewrite ?Hq, ?Hk. cbn. repeat split. intros ev H. in_trace; by subst.
    + left. by exists (String c g').
  - right. cbn. repeat split. intros ev H. in_trace. by subst.
Qed.

(** The tick never lets an error escape. *)
Lemma tick_completes w s : res (tick w s) = Normal tt.
Proof.
  destruct (tick_cases w s) as [[g Hg] | (_ & Hr & _)]; [| done].
  by rewrite (tick_scan _ _ _ Hg), res_after, loop_completes.
Qed.

Lemma tick_ban_sound w s chat user :
  BanChatMember chat user ∈ trace (tick w s) →
  ∃ g, PRIVATE_GROUP_ID w = Some g ∧ chat = formatGroupId g ∧
       ∃ m, getChatMember w chat user = inr m ∧ exempt m = false.
Proof.
  intros Hin. destruct (tick_cases w s) as [[g Hg] | (_ & _ & He)].
  - rewrite (tick_scan _ _ _ Hg), trace_after in Hin.
    apply elem_of_app in Hin as [Hin | Hin]; [in_trace; done |].
    apply loop_ban_sound in Hin as (-> & m & Hm & Hex).
    exists g. split; [apply Hg | eauto].
  - by apply He in Hin.
Qed.

Lemma loop_lookup_failed_logged w g users s k text data e :
  k ∈ users →
  redis_get_fault w k = None → redis s !! k = Some text → text ≠ "" →
  JSON_parse w text = inr data →
  getChatMember w g (userIdOf k) = inl e →
  redis_del_fault w k = None →
  Log Error ("Error checking member " +:+ JS.show (userIdOf k) +:+ ":") (ErrorArg e)
    ∈ trace (for_of users (processKey w g) s) ∧
  RedisDel k ∈ trace (for_of users (processKey w g) s).
Proof.
  intros Hk Hget Hrec Hne Hparse Hm Hdel. revert s Hrec.
  induction users as [| k' users IH]; intros s Hrec.
  - by apply elem_of_nil in Hk.
  - rewrite for_of_processKey_cons, trace_after, !elem_of_app.
    destruct (decide (k = k')) as [<- | Hkk'].
    + erewrite processKey_lookup_failed by done. cbn [trace].
      split; left; trace_mem.
    + apply elem_of_cons in Hk as [? | Hk]; [done |].
      destruct (IH Hk (final (processKey w g k' s))) as [? ?]; [| by auto].
      by rewrite processKey_lookup_other.
Qed.

Lemma exempt_roles m :
  exempt m = true ↔ status m = "creator" ∨ status m = "administrator".
Proof.
  unfold exempt. rewrite orb_true_iff, !String.eqb_eq. tauto.
Qed.

(** The records the tick leaves in place although it processed them:
    those that do not parse, those of exempt members, and those of bots
    whose removal went through. *)
Lemma loop_keeps_skipped_record w g users s k text :
  redis_get_fault w k = None → redis s !! k = Some text → text ≠ "" →
  (∃ e, JSON_parse w text = inl e) ∨
  (∃ data m, JSON_parse w text = inr data ∧
             getChatMember w g (userIdOf k) = inr m ∧
             (exempt m = true ∨
              (exempt m = false ∧ is_bot m = true ∧
               banChatMember w g (userIdOf k) = None))) →
  redis (final (for_of users (processKey w g) s)) !! k = Some text.
Proof.
  intros Hget Hrec Hne Hcase. revert s Hrec.
  induction users as [| k' users IH]; intros s Hrec; [done |].
  rewrite for_of_processKey_cons, final_after. apply IH.
  destruct (decide (k = k')) as [<- | Hkk']; [| by rewrite processKey_lookup_other].
  destruct Hcase as [[e Hp] | (data & m & Hp & Hm & Hc)].
  - by erewrite processKey_malformed.
  - by destruct (processKey_continues w g k s text data Hget Hrec Hne Hp m Hm Hc)
      as [_ ->].
Qed.

Lemma tick_keeps_skipped_record w s g k text :
  scan_runs w g →
  redis_get_fault w k = None → redis s !! k = Some text → text ≠ "" →
  (∃ e, JSON_parse w text = inl e) ∨
  (∃ data m, JSON_parse w text = inr data ∧
             getChatMember w (formatGroupId g) (userIdOf k) = inr m ∧
             (exempt m = true ∨
              (exempt m = false ∧ is_bot m = true ∧
               banChatMember w (formatGroupId g) (userIdOf k) = None))) →
  redis (final (tick w s)) !! k = Some text.
Proof.
  intros Hrun Hget Hrec Hne Hcase.
  rewrite (tick_scan _ _ _ Hrun), final_after.
  by apply loop_keeps_skipped_record.
Qed.

(** ** The scenarios of the specification *)

(** Scenario A: user 111 lacks the balance and is a plain member; the
    user is removed, then the record is deleted. *)
Example scenario_A :
  trace (tick (example_world None (as_member "member" false) None)
              (example_store [("user:111:permissions", record_text false)]))
  = [QueueAdd "123456"; RedisKeys "user:*:permissions";
     Log Info "Checking permissions for 1 users in group 123456" NoArg;
     Log Info "Using formatted group ID: -100123456" NoArg;
     RedisGet "user:111:permissions"; JsonParse (record_text false);
     Log Info "Processing user 111 with data:"
         (ValueArg (JS.Obj [("hasRequiredBalance", JS.Bool false)]));
     GetChatMember "-100123456" (Some "111");
     Log Info "Member status for 111: member" NoArg;
     BanChatMember "-100123456" (Some "111");
     Log Info "Removed user 111 from the group due to insufficient tokens" NoArg;
     RedisDel "user:111:permissions"].
Proof. vm_compute. reflexivity. Qed.

(** Scenario B: user 222 has the balance; no removal, record deleted. *)
Example scenario_B :
  trace (tick (example_world None (as_member "member" false) None)
              (example_store [("user:222:permissions", record_text true)]))
  = [QueueAdd "123456"; RedisKeys "user:*:permissions";
     Log Info "Checking permissions for 1 users in group 123456" NoArg;
     Log Info "Using formatted group ID: -100123456" NoArg;
     RedisGet "user:222:permissions"; JsonParse (record_text true);
     Log Info "Processing user 222 with data:"
         (ValueArg (JS.Obj [("hasRequiredBalance", JS.Bool true)]));
     GetChatMember "-100123456" (Some "222");
     Log Info "Member status for 222: member" NoArg;
     RedisDel "user:222:permissions"]
  ∧ redis (final (tick (example_world None (as_member "member" false) None)
                       (example_store [("user:222:permissions", record_text true)])))
    = ∅.
Proof. split; vm_compute; reflexivity. Qed.

(** An exempt member and a bot: both iterations end by [continue], and
    neither record is deleted. *)
Example exempt_and_bot_records_stay :
  redis (final (tick
      (example_world None
         (fun user => if decide (user = Some "333")
                      then inr {| status := "creator"; is_bot := false |}
                      else inr {| status := "member"; is_bot := true |})
         None)
      (example_store [("user:333:permissions", record_text false);
                      ("user:777:permissions", record_text true)])))
  = redis (example_store [("user:333:permissions", record_text false);
                          ("user:777:permissions", record_text true)]).
Proof. vm_compute. reflexivity. Qed.

(** ** The claims about the reconciliation tick *)

(** The keys whose processing reaches the deletion step past a failed
    lookup or past the balance test: their record is deleted whether a
    removal was issued or not and whether it succeeded or not, provided
    the store carries out the deletion. *)
Theorem tick_deletes_processed_key w s g k data :
  scan_runs w g →
  glob permission_pattern k = true →
  record_read w s k data →
  (∃ e, getChatMember w (formatGroupId g) (userIdOf k) = inl e) ∨
  (∃ m, getChatMember w (formatGroupId g) (userIdOf k) = inr m ∧
        exempt m = false ∧ is_bot m = false) →
  redis_del_fault w k = None →
  redis (final (tick w s)) !! k = None.
Proof.
  intros Hrun Hglob (Hget & text & Hrec & Hne & Hparse) Hm Hdel.
  rewrite (tick_scan _ _ _ Hrun), final_after.
  eapply loop_deletes; eauto.
  apply elem_of_keys_matching. by rewrite Hrec.
Qed.

(** A plain member without the required balance, in a group where the
    removal call is rejected: the record is deleted all the same. *)
Lemma tick_deletes_processed_key_witness :
  redis (final (tick
      (example_world None (as_member "member" false)
                     (Some (JS.ExternalError "not enough rights")))
      (example_store [("user:111:permissions", record_text false)])))
    !! "user:111:permissions" = None.
Proof.
  apply (tick_deletes_processed_key _ _ "123456" _
           (JS.Obj [("hasRequiredBalance", JS.Bool false)])).
  - by repeat split.
  - reflexivity.
  - split; [reflexivity |]. exists (record_text false). by repeat split.
  - right. exists {| status := "member"; is_bot := false |}. by repeat split.
  - reflexivity.
Defined.

(** The record of an administrator is still in the store after a tick
    in which every collaborator answered. *)
Lemma administrator_record_survives_tick :
  ¬ all_scanned_keys_deleted
      (example_world None (as_member "administrator" false) None)
      (example_store [("user:333:permissions", record_text false)]).
Proof.
  intros H. specialize (H "user:333:permissions").
  assert (Hin : "user:333:permissions"
                ∈ keys_matching permission_pattern
                    (redis (example_store [("user:333:permissions", record_text false)]))).
  { apply elem_of_keys_matching. split; [reflexivity |]. vm_compute. eauto. }
  apply H in Hin. vm_compute in Hin. discriminate Hin.
Qed.

(** The deletion step is reached by every iteration that does not end
    by [continue]: with the record read and the store carrying out the
    deletion, the record is deleted unless the lookup reported an exempt
    member, or a bot whose removal went through. *)
Lemma processKey_deletes_unless_continue w g k s text data :
  redis_get_fault w k = None → redis s !! k = Some text → text ≠ "" →
  JSON_parse w text = inr data →
  redis_del_fault w k = None →
  (∀ m, getChatMember w g (userIdOf k) = inr m →
        exempt m = false ∧
        (is_bot m = true → banChatMember w g (userIdOf k) ≠ None)) →
  final (processKey w g k s) = with_redis (delete k (redis s)) s.
Proof.
  intros Hget Hrec Hne Hparse Hdel Hm. unfold_ops.
  rewrite Hget, Hrec, (falsy_string_Some text Hne). cbn. rewrite Hparse.
  destruct (getChatMember w g (userIdOf k)) as [e | m]; cbn; rewrite ?Hdel; [done |].
  destruct (Hm m eq_refl) as [-> Hban].
  destruct (is_bot m); cbn.
  - destruct (banChatMember w g (userIdOf k)); cbn; rewrite ?Hdel; [done |].
    by destruct Hban.
  - repeat (split_match; cbn [res final trace app] in *; simplify_eq; auto).
Qed.

Lemma tick_deletes_unless_continue w s g k data :
  scan_runs w g →
  glob permission_pattern k = true →
  record_read w s k data →
  redis_del_fault w k = None →
  (∀ m, getChatMember w (formatGroupId g) (userIdOf k) = inr m →
        exempt m = false ∧
        (is_bot m = true →
         banChatMember w (formatGroupId g) (userIdOf k) ≠ None)) →
  redis (final (tick w s)) !! k = None.
Proof.
  intros Hrun Hglob (Hget & text & Hrec & Hne & Hparse) Hdel Hm.
  rewrite (tick_scan _ _ _ Hrun), final_after.
  assert (Hin : k ∈ keys_matching permission_pattern (redis s)).
  { apply elem_of_keys_matching. by rewrite Hrec. }
  revert Hin Hrec. generalize (keys_matching permission_pattern (redis s)).
  intros users Hin. revert s.
  induction users as [| k' users IH]; intros s Hrec.
  - by apply elem_of_nil in Hin.
  - rewrite for_of_processKey_cons, final_after.
    destruct (decide (k = k')) as [<- | Hkk'].
    + apply loop_lookup_None.
      erewrite processKey_deletes_unless_continue by done.
      rewrite with_redis_lookup. apply lookup_delete_eq.
    + apply elem_of_cons in Hin as [? | Hin]; [done |].
      apply IH; [done |]. by rewrite processKey_lookup_other.
Qed.

(** C1 (the code at the failing input).  Three records are waiting:
    a plain member without the balance (111), an administrator (333) and
    a bot (777).  With every collaborator answering, the tick deletes
    the record of 111 only: the iterations of 333 and of 777 end by
    [continue], before the deletion step.  In the same tick with the
    removal calls rejected, the bot's iteration goes through the inner
    handler instead and its record is deleted as well. *)
Theorem continue_skips_the_delete :
  redis (final (tick (example_world None mixed_members None)
                     (example_store waiting_records)))
  = list_to_map [("user:333:permissions", record_text false);
                 ("user:777:permissions", record_text true)] ∧
  redis (final (tick (example_world None mixed_members
                                    (Some (JS.ExternalError "not enough rights")))
                     (example_store waiting_records)))
  = list_to_map [("user:333:permissions", record_text false)].
Proof. split; vm_compute; reflexivity. Qed.

(** C2 (as amended).  When the membership lookup of a scanned key
    fails, the tick logs the error, goes on to fetch every scanned key
    and completes; the record of that key is deleted in the same tick
    (provided the store carries out the deletion), so the next scan does
    not find it again. *)
Theorem failed_lookup_deletes_record w s g k data e :
  scan_runs w g →
  k ∈ keys_matching permission_pattern (redis s) →
  record_read w s k data →
  getChatMember w (formatGroupId g) (userIdOf k) = inl e →
  redis_del_fault w k = None →
  Log Error ("Error checking member " +:+ JS.show (userIdOf k) +:+ ":") (ErrorArg e)
    ∈ trace (tick w s) ∧
  (∀ k', k' ∈ keys_matching permission_pattern (redis s) →
         RedisGet k' ∈ trace (tick w s)) ∧
  res (tick w s) = Normal tt ∧
  RedisDel k ∈ trace (tick w s) ∧
  k ∉ keys_matching permission_pattern (redis (final (tick w s))).
Proof.
  intros Hrun Hin (Hget & text & Hrec & Hne & Hparse) Hm Hdel.
  rewrite (tick_scan _ _ _ Hrun), trace_after, res_after, final_after.
  destruct (loop_lookup_failed_logged w (formatGroupId g)
              (keys_matching permission_pattern (redis s)) s k text data e)
    as [Hlog Hrm]; try done.
  repeat split.
  - apply elem_of_app. by right.
  - intros k' Hk'. apply elem_of_app. right. by apply loop_fetches_all.
  - apply loop_completes.
  - apply elem_of_app. by right.
  - rewrite elem_of_keys_matching. intros [_ [v Hv]].
    erewrite loop_deletes in Hv; eauto. done.
Qed.

Lemma failed_lookup_deletes_record_witness :
  RedisDel "user:444:permissions"
    ∈ trace (tick (example_world None unreachable None)
                  (example_store [("user:444:permissions", record_text true)])).
Proof.
  apply (failed_lookup_deletes_record
           (example_world None unreachable None)
           (example_store [("user:444:permissions", record_text true)])
           "123456" "user:444:permissions"
           (JS.Obj [("hasRequiredBalance", JS.Bool true)])
           (JS.ExternalError "ETIMEDOUT")).
  - by repeat split.
  - apply elem_of_keys_matching. split; [reflexivity |]. vm_compute. eauto.
  - split; [reflexivity |]. exists (record_text true). by repeat split.
  - reflexivity.
  - reflexivity.
Defined.

(** C2 (counterexample).  The lookup for user 444 times out, and the
    record is gone after the tick. *)
Lemma failed_lookup_record_is_gone :
  ¬ failed_lookup_keeps_record
      (example_world None unreachable None)
      (example_store [("user:444:permissions", record_text true)])
      "123456" "user:444:permissions".
Proof.
  intros H.
  destruct (H (JS.Obj [("hasRequiredBalance", JS.Bool true)])
              (JS.ExternalError "ETIMEDOUT")) as [_ [v Hv]].
  - by repeat split.
  - apply elem_of_keys_matching. split; [reflexivity |]. vm_compute. eauto.
  - split; [reflexivity |]. exists (record_text true). by repeat split.
  - reflexivity.
  - vm_compute in Hv. discriminate Hv.
Qed.

(** C3 (as amended).  When the job submission is rejected, the error
    is caught and logged by the handler around the whole tick, and the
    tick ends there: no scan, no per-key processing, the store
    untouched. *)
Theorem failed_submission_ends_tick w s g e :
  PRIVATE_GROUP_ID w = Some g → g ≠ "" → queue_add w g = Some e →
  tick w s =
    Outcome (Normal tt) s
      [QueueAdd g; Log Error "Permission check error:" (ErrorArg e)].
Proof.
  intros Hg Hne Hq. unfold tick. rewrite Hg.
  destruct g as [| c g']; [done |].
  cbv [try_catch bind emit await_unit ret redis_keys log after throw].
  by rewrite Hq.
Qed.

Lemma failed_submission_ends_tick_witness :
  tick (example_world (Some (JS.ExternalError "ECONNREFUSED"))
                      (as_member "member" false) None)
       (example_store [("user:111:permissions", record_text false)])
  = Outcome (Normal tt)
      (example_store [("user:111:permissions", record_text false)])
      [QueueAdd "123456";
       Log Error "Permission check error:"
           (ErrorArg (JS.ExternalError "ECONNREFUSED"))].
Proof.
  apply (failed_submission_ends_tick
           (example_world (Some (JS.ExternalError "ECONNREFUSED"))
                          (as_member "member" false) None)
           _ "123456" (JS.ExternalError "ECONNREFUSED"));
    [reflexivity | discriminate | reflexivity].
Defined.

(** C3 (counterexample).  With the broker refusing the job, the tick
    issues no key scan. *)
Lemma failed_submission_skips_scan :
  ¬ failed_submission_tick_proceeds
      (example_world (Some (JS.ExternalError "ECONNREFUSED"))
                     (as_member "member" false) None)
      (example_store [("user:111:permissions", record_text false)])
      "123456".
Proof.
  intros H.
  destruct (H (JS.ExternalError "ECONNREFUSED")) as (_ & Hscan & _);
    [reflexivity | discriminate | reflexivity |].
  assert (trace (tick (example_world (Some (JS.ExternalError "ECONNREFUSED"))
                                     (as_member "member" false) None)
                      (example_store [("user:111:permissions", record_text false)]))
          = [QueueAdd "123456";
             Log Error "Permission check error:"
                 (ErrorArg (JS.ExternalError "ECONNREFUSED"))]) as Ht
    by (vm_compute; reflexivity).
  rewrite Ht in Hscan. in_trace; discriminate.
Qed.

(** C4.  When the membership lookup for the user of a permission key
    reports the role creator (owner) or administrator, the tick issues
    no removal call for that user, whatever the stored record says. *)
Theorem exempt_member_not_removed w s g k m chat :
  PRIVATE_GROUP_ID w = Some g →
  getChatMember w (formatGroupId g) (userIdOf k) = inr m →
  status m = "creator" ∨ status m = "administrator" →
  BanChatMember chat (userIdOf k) ∉ trace (tick w s).
Proof.
  intros Hg Hm Hrole Hin.
  apply tick_ban_sound in Hin as (g' & Hg' & -> & m' & Hm' & Hex).
  rewrite Hg in Hg'. injection Hg' as <-. rewrite Hm in Hm'. injection Hm' as <-.
  apply exempt_roles in Hrole. congruence.
Qed.

(** An administrator whose record says [hasRequiredBalance = false]. *)
Lemma exempt_member_not_removed_witness :
  BanChatMember "-100123456" (Some "333")
    ∉ trace (tick (example_world None (as_member "administrator" false) None)
                  (example_store [("user:333:permissions", record_text false)])).
Proof.
  apply (exempt_member_not_removed
           (example_world None (as_member "administrator" false) None)
           (example_store [("user:333:permissions", record_text false)])
           "123456" "user:333:permissions"
           {| status := "administrator"; is_bot := false |} "-100123456");
    [reflexivity | reflexivity | by right].
Defined.

(** C5.  When the record of a scanned key is read and the membership
    lookup reports a bot whose role is neither creator nor
    administrator, the tick issues a removal call for that user,
    whatever the stored record says. *)
Theorem bot_removed w s g k data m :
  scan_runs w g →
  k ∈ keys_matching permission_pattern (redis s) →
  record_read w s k data →
  getChatMember w (formatGroupId g) (userIdOf k) = inr m →
  exempt m = false → is_bot m = true →
  BanChatMember (formatGroupId g) (userIdOf k) ∈ trace (tick w s).
Proof.
  intros Hrun Hin (Hget & text & Hrec & Hne & Hparse) Hm Hex Hbot.
  rewrite (tick_scan _ _ _ Hrun), trace_after. apply elem_of_app. right.
  by eapply loop_bot_banned.
Qed.

(** A bot that is a plain member and whose record says
    [hasRequiredBalance = true]. *)
Lemma bot_removed_witness :
  BanChatMember "-100123456" (Some "777")
    ∈ trace (tick (example_world None (as_member "member" true) None)
                  (example_store [("user:777:permissions", record_text true)])).
Proof.
  apply (bot_removed
           (example_world None (as_member "member" true) None)
           (example_store [("user:777:permissions", record_text true)])
           "123456" "user:777:permissions"
           (JS.Obj [("hasRequiredBalance", JS.Bool true)])
           {| status := "member"; is_bot := true |}).
  - by repeat split.
  - apply elem_of_keys_matching. split; [reflexivity |]. vm_compute. eauto.
  - split; [reflexivity |]. exists (record_text true). by repeat split.
  - reflexivity.
  - reflexivity.
  - reflexivity.
Defined.

(** ** The claims about the sentiment fan-out *)

Ltac unfold_fanout :=
  cbv [onMessage broadcastUpdate stop unsubscribe JSON_parse' log
       try_catch bind emit await await_unit throw continue ret after].

(** The listener returns normally on every message and never touches
    the connections. *)
Lemma onMessage_completes w this channel message s :
  res (onMessage w this channel message s) = Normal tt ∧
  final (onMessage w this channel message s) = s.
Proof.
  unfold_fanout.
  repeat (split_match; cbn [res final trace app] in *; simplify_eq; auto).
Qed.

Lemma onMessage_malformed w this message s e :
  JSON_parse w message = inl e →
  onMessage w this channel_name message s =
    Outcome (Normal tt) s
      [JsonParse message;
       Log Error "Error processing sentiment update:" (ErrorArg e)].
Proof. intros Hp. unfold_fanout. cbn. by rewrite Hp. Qed.

(** What the listener emits for a message that parses: the parse,
    whatever [broadcastUpdate] emits and, if that threw, one error line. *)
Lemma onMessage_parsed w this message update s ev :
  JSON_parse w message = inr update →
  ev ∈ trace (onMessage w this channel_name message s) →
  ev = JsonParse message ∨
  ev ∈ trace (broadcastUpdate w this update s) ∨
  ∃ e, ev = Log Error "Error processing sentiment update:" (ErrorArg e).
Proof.
  intros Hp. unfold onMessage. rewrite String.eqb_refl.
  cbv [JSON_parse' try_catch bind emit await throw ret log after].
  rewrite Hp.
  destruct (broadcastUpdate w this update s) as [[[] | | e] s' t];
    cbn [trace app]; intros Hin; in_trace; auto;
    try (apply elem_of_app in Hin as [Hin | Hin]; in_trace); eauto.
Qed.

(** C6.  A batch whose [significantTweetsCount] is 0, or any batch when
    no destination group is configured, leads to no [sendMessage] call:
    neither from [broadcastUpdate] itself nor from the listener that
    parsed the batch. *)
Theorem silent_batch_sends_nothing w this update s chat text :
  (∃ c, significantTweetsCount update = inr c ∧ JS.strict_eq_zero c = true) ∨
  privateGroupId this = "" →
  (SendMessage chat text ∉ trace (broadcastUpdate w this update s)) ∧
  (∀ message, JSON_parse w message = inr update →
     SendMessage chat text ∉ trace (onMessage w this channel_name message s)).
Proof.
  intros Hquiet.
  assert (Hb : SendMessage chat text ∉ trace (broadcastUpdate w this update s)).
  { unfold significantTweetsCount in Hquiet. unfold_fanout.
    destruct (JS.get update "metadata") as [e | metadata];
      [cbn; apply not_elem_of_nil |].
    destruct (JS.get metadata "significantTweetsCount") as [e | c];
      [cbn; apply not_elem_of_nil |].
    assert ((JS.strict_eq_zero c || String.eqb (privateGroupId this) "") = true) as ->.
    { apply orb_true_iff. destruct Hquiet as [(c' & [= <-] & Hz) | Hno]; [by left |].
      right. by apply String.eqb_eq. }
    cbn. apply not_elem_of_nil. }
  split; [done |].
  intros message Hp Hin.
  eapply onMessage_parsed in Hin as [? | [? | [e ?]]]; [| | | done]; done.
Qed.

(** Scenario C of the specification: an empty batch, group configured. *)
Lemma silent_batch_sends_nothing_witness :
  SendMessage "-100123456" "update"
    ∉ trace (broadcastUpdate
               (example_world None (as_member "member" false) None)
               (make (Some "123456")) empty_batch (example_store [])).
Proof.
  apply (silent_batch_sends_nothing
           (example_world None (as_member "member" false) None)
           (make (Some "123456")) empty_batch (example_store [])
           "-100123456" "update").
  left. exists (JS.Num 0%float). split; reflexivity.
Defined.

(** C8.  A stored record or an inbound message that [JSON.parse]
    rejects is logged and skipped, and nothing escapes: the key loop
    goes on with the remaining keys from an unchanged store, the tick
    ends normally, and the listener returns normally with the
    connections as they were. *)
Theorem malformed_json_is_contained w :
  (∀ g k users s text e,
     redis_get_fault w k = None → redis s !! k = Some text → text ≠ "" →
     JSON_parse w text = inl e →
     for_of (k :: users) (processKey w g) s =
       after [RedisGet k; JsonParse text;
              Log Error ("Error processing key " +:+ k +:+ ":") (ErrorArg e)]
             (for_of users (processKey w g) s)) ∧
  (∀ s, res (tick w s) = Normal tt) ∧
  (∀ this message s e,
     JSON_parse w message = inl e →
     onMessage w this channel_name message s =
       Outcome (Normal tt) s
         [JsonParse message;
          Log Error "Error processing sentiment update:" (ErrorArg e)]) ∧
  (∀ this channel message s,
     res (onMessage w this channel message s) = Normal tt ∧
     final (onMessage w this channel message s) = s).
Proof.
  repeat split.
  - intros g k users s text e Hget Hrec Hne Hp.
    rewrite for_of_processKey_cons.
    by rewrite (processKey_malformed w g k s text Hget Hrec Hne e Hp).
  - apply tick_completes.
  - intros. by apply onMessage_malformed.
  - apply onMessage_completes.
  - apply onMessage_completes.
Qed.

Lemma malformed_json_is_contained_witness :
  trace (tick (example_world None (as_member "member" false) None)
              (example_store [("user:555:permissions", "oops")]))
  = [QueueAdd "123456"; RedisKeys "user:*:permissions";
     Log Info "Checking permissions for 1 users in group 123456" NoArg;
     Log Info "Using formatted group ID: -100123456" NoArg;
     RedisGet "user:555:permissions"; JsonParse "oops";
     Log Error "Error processing key user:555:permissions:" (ErrorArg JS.SyntaxError)]
  ∧ onMessage (example_world None (as_member "member" false) None)
              (make (Some "123456")) channel_name "oops" (example_store [])
    = Outcome (Normal tt) (example_store [])
        [JsonParse "oops";
         Log Error "Error processing sentiment update:" (ErrorArg JS.SyntaxError)].
Proof.
  pose proof (malformed_json_is_contained
                (example_world None (as_member "member" false) None))
    as (Hloop & _ & Hmsg & _).
  split.
  - erewrite tick_scan by by repeat split.
    rewrite trace_after.
    assert (keys_matching permission_pattern
              (redis (example_store [("user:555:permissions", "oops")]))
            = ["user:555:permissions"]) as -> by (vm_compute; reflexivity).
    rewrite (Hloop _ _ _ _ "oops" JS.SyntaxError);
      [reflexivity | reflexivity | reflexivity | discriminate | reflexivity].
  - apply Hmsg. reflexivity.
Defined.

(** C9 (as amended).  On an open subscriber connection [stop] succeeds, a second
    [stop] right after it succeeds too and changes nothing, and a [stop]
    with the channel already unsubscribed leaves the service as it
    was. *)
Theorem stop_idempotent s :
  subscriber_open s = true →
  res (stop s) = Normal tt ∧
  res (stop (final (stop s))) = Normal tt ∧
  final (stop (final (stop s))) = final (stop s) ∧
  (channel_name ∉ subscriber (final (stop s))) ∧
  (channel_name ∉ subscriber s → final (stop s) = s).
Proof.
  intros Hopen. unfold_fanout. rewrite Hopen. cbn. rewrite Hopen. cbn.
  repeat split.
  - unfold with_subscriber. cbn. f_equal. apply difference_twice_L.
  - apply not_elem_of_difference. right. by apply elem_of_singleton.
  - intros Hout. destruct s as [m o c]. unfold with_subscriber. cbn in *.
    f_equal. by apply difference_disjoint_L, disjoint_singleton_r.
Qed.

Lemma stop_idempotent_witness :
  final (stop (final (stop (example_store [])))) = final (stop (example_store [])).
Proof.
  apply (stop_idempotent (example_store [])). reflexivity.
Defined.

(** The hypothesis is needed: once the SIGTERM handler of redis.ts
    has quit the subscriber connection, [stop] rejects. *)
Lemma stop_after_quit_rejects s :
  res (stop (quit_subscriber s)) = Throw (JS.ExternalError "Connection is closed.").
Proof. reflexivity. Qed.

(** C9 (counterexample).  After the SIGTERM handler of redis.ts has
    quit the subscriber connection the subscription is gone, and [stop],
    called once or twice, rejects. *)
Lemma stop_rejects_once_connection_is_quit :
  ¬ stop_is_idempotent (quit_subscriber (example_store [])).
Proof. intros (H & _). vm_compute in H. discriminate H. Qed.

(** C10.  A message delivered on any channel other than
    ["sentiment:updates"] is ignored: nothing is parsed, logged or sent,
    and the listener returns at once. *)
Theorem other_channel_ignored w this channel message s :
  channel ≠ channel_name →
  onMessage w this channel message s = Outcome (Normal tt) s [].
Proof.
  intros Hne. unfold onMessage.
  by apply String.eqb_neq in Hne as ->.
Qed.

Lemma other_channel_ignored_witness :
  onMessage (example_world None (as_member "member" false) None)
            (make (Some "123456")) "price:updates" empty_batch_text (example_store [])
  = Outcome (Normal tt) (example_store []) [].
Proof.
  apply (other_channel_ignored
           (example_world None (as_member "member" false) None)
           (make (Some "123456")) "price:updates").
  discriminate.
Defined.

(** ** The claim about the destination identifier *)

Lemma replace_dash s : JS.replace s "-" "" = remove_first_dash s.
Proof.
  induction s as [| c s IH]; [done |].
  cbn [JS.replace JS.startsWith remove_first_dash String.length JS.skip].
  rewrite (Ascii.eqb_sym "-" c).
  destruct (Ascii.eqb c "-"); [| by rewrite IH].
  by destruct s.
Qed.

Lemma remove_first_dash_id s : has_dash s = false → remove_first_dash s = s.
Proof.
  induction s as [| c s IH]; [done |]. cbn.
  intros [Hc Hs]%orb_false_iff. rewrite Hc. by rewrite IH.
Qed.

(** The normalisation on arbitrary strings: an identifier that starts
    with "-100" is returned unchanged; any other string yields "-100"
    followed by the string without its first "-", wherever that "-"
    stands; when the only possible "-" is the first character, this is
    the normalisation of the specification. *)
Theorem formatGroupId_normalises id :
  (JS.startsWith id "-100" = true → formatGroupId id = id) ∧
  (JS.startsWith id "-100" = false →
     formatGroupId id = "-100" +:+ remove_first_dash id) ∧
  (sign_only_leading id → formatGroupId id = normalize_spec id).
Proof.
  unfold formatGroupId, normalize_spec. repeat split.
  - by intros ->.
  - intros ->. by rewrite replace_dash.
  - intros Hsign. destruct (JS.startsWith id "-100"); [done |].
    rewrite replace_dash. f_equal.
    destruct id as [| c rest]; [done |]. cbn in *.
    destruct (Ascii.eqb c "-"); [done |]. by rewrite remove_first_dash_id.
Qed.

Lemma formatGroupId_normalises_witness :
  formatGroupId "123456" = "-100123456" ∧ formatGroupId "-100123456" = "-100123456".
Proof.
  split.
  - exact (proj2 (proj2 (formatGroupId_normalises "123456")) eq_refl).
  - exact (proj1 (formatGroupId_normalises "-100123456") eq_refl).
Defined.

(** Outside the identifiers, on a string with a "-" in its middle,
    that "-" is removed too: "12-34" becomes "-1001234". *)
Lemma inner_dash_is_removed :
  formatGroupId "12-34" ≠ normalize_spec "12-34".
Proof. vm_compute. discriminate. Qed.

Lemma digit_is_no_dash c : is_digit c = true → Ascii.eqb c "-" = false.
Proof.
  intros Hc. destruct (Ascii.eqb_spec c "-") as [-> | _]; [| done].
  by vm_compute in Hc.
Qed.

Lemma all_digits_no_dash s : all_digits s = true → has_dash s = false.
Proof.
  induction s as [| c s IH]; [done |]. cbn [all_digits has_dash].
  intros [Hc Hs]%andb_true_iff.
  by rewrite (digit_is_no_dash c Hc), IH.
Qed.

(** Every signed number is an identifier in the sense of
    [sign_only_leading]. *)
Lemma signed_number_sign_only_leading id :
  is_signed_number id = true → sign_only_leading id.
Proof.
  destruct id as [| c rest]; [done |]. cbn [is_signed_number sign_only_leading].
  destruct (Ascii.eqb c "-").
  - intros [Hd _]%andb_true_iff. by apply all_digits_no_dash.
  - cbn [all_digits]. intros [_ Hd]%andb_true_iff. by apply all_digits_no_dash.
Qed.

(** C7.  For every destination identifier, a string in which "-" can
    only be the first character (every signed number is one): if the
    identifier already starts with the supergroup prefix "-100" the
    result is the identifier unchanged; otherwise the result is "-100"
    prepended to the identifier with its leading sign stripped. *)
Theorem formatGroupId_normalises_identifier id :
  sign_only_leading id →
  (JS.startsWith id "-100" = true → formatGroupId id = id) ∧
  (JS.startsWith id "-100" = false →
     formatGroupId id = "-100" +:+ strip_leading_sign id).
Proof.
  intros Hsign. unfold formatGroupId. split; intros ->; [done |].
  rewrite replace_dash. f_equal.
  destruct id as [| c rest]; [done |].
  cbn [sign_only_leading remove_first_dash strip_leading_sign] in *.
  destruct (Ascii.eqb c "-"); [done |]. by rewrite remove_first_dash_id.
Qed.

(** The example of the specification, its signed form, and an
    identifier that is already prefixed. *)
Lemma formatGroupId_normalises_identifier_witness :
  formatGroupId "123456" = "-100123456" ∧
  formatGroupId "-123456" = "-100123456" ∧
  formatGroupId "-100123456" = "-100123456".
Proof.
  split; [| split].
  - exact (proj2 (formatGroupId_normalises_identifier "123456" eq_refl) eq_refl).
  - exact (proj2 (formatGroupId_normalises_identifier "-123456" eq_refl) eq_refl).
  - exact (proj1 (formatGroupId_normalises_identifier "-100123456" eq_refl) eq_refl).
Defined.

(** * Further properties of the reconciliation tick *)



Section OneKeyMore.
Context (w : World) (g k : string) (s : RedisService).

(** What one key's processing does to the store: nothing, or a DEL of
    that key that the trace records. *)
Lemma processKey_effect :
  final (processKey w g k s) = s ∨
  (final (processKey w g k s) = with_redis (delete k (redis s)) s ∧
   RedisDel k ∈ trace (processKey w g k s)).
Proof.
  crunch; right; (split; [done | trace_mem]).
Qed.


(** Why a removal call is made: the record of the key was read, the
    lookup reported a member outside the exempt roles, and that member
    is a bot or the record's [hasRequiredBalance] is falsy. *)
Lemma processKey_ban_justified chat user :
  BanChatMember chat user ∈ trace (processKey w g k s) →
  chat = g ∧ user = userIdOf k ∧
  ∃ text data m,
    redis s !! k = Some text ∧ JSON_parse w text = inr data ∧
    getChatMember w g (userIdOf k) = inr m ∧ exempt m = false ∧
    (is_bot m = true ∨
     ∃ v, JS.get data "hasRequiredBalance" = inr v ∧ JS.truthy v = false).
Proof.
  unfold_ops.
  destruct (redis_get_fault w k); cbn [res final trace app];
    [intros H; in_trace; discriminate |].
  destruct (redis s !! k) as [text |] eqn:Hrec; cbn [falsy_string default];
    repeat (split_match; cbn [res final trace app] in *; simplify_eq; auto);
    cbn [res final trace app]; intros H; in_trace; simplify_eq;
    (do 2 (split; [done |])); do 3 eexists;
    (do 4 (split; [done |]));
    first [by left | right; eexists; split; [done |]; by apply negb_true_iff].
Qed.

End OneKeyMore.

Section OneKeyCases.
Context (w : World) (g k : string) (s : RedisService).

Lemma processKey_lookup_Some k' text :
  redis (final (processKey w g k s)) !! k' = Some text → redis s !! k' = Some text.
Proof.
  destruct (processKey_store w g k s) as [-> | ->]; [done |].
  rewrite with_redis_lookup. by intros [_ ?]%lookup_delete_Some.
Qed.

Lemma processKey_connections :
  subscriber (final (processKey w g k s)) = subscriber s ∧
  subscriber_open (final (processKey w g k s)) = subscriber_open s.
Proof. by destruct (processKey_store w g k s) as [-> | ->]. Qed.

(** A key whose value is the empty string is left alone. *)
Lemma processKey_empty :
  redis s !! k = Some "" → final (processKey w g k s) = s.
Proof.
  intros Hrec. unfold_ops.
  destruct (redis_get_fault w k); cbn [res final trace app]; [done |].
  by rewrite Hrec.
Qed.

Lemma processKey_parse_nonempty text :
  JsonParse text ∈ trace (processKey w g k s) → text ≠ "".
Proof.
  unfold_ops.
  destruct (redis_get_fault w k); cbn [res final trace app];
    [intros H; in_trace; discriminate |].
  destruct (redis s !! k) as [text' |] eqn:Hrec; cbn [falsy_string default];
    [destruct (String.eqb_spec text' "") |];
    repeat (split_match; cbn [res final trace app] in *; simplify_eq; auto);
    cbn [res final trace app]; intros H; in_trace; simplify_eq; done.
Qed.

Lemma processKey_insufficient_banned text data m v :
  redis_get_fault w k = None → redis s !! k = Some text → text ≠ "" →
  JSON_parse w text = inr data →
  getChatMember w g (userIdOf k) = inr m →
  exempt m = false → is_bot m = false →
  JS.get data "hasRequiredBalance" = inr v → JS.truthy v = false →
  BanChatMember g (userIdOf k) ∈ trace (processKey w g k s).
Proof.
  intros Hget Hrec Hne Hparse Hm Hex Hbot Hv Hf. unfold_ops.
  rewrite Hget, Hrec, (falsy_string_Some text Hne). cbn.
  rewrite Hparse, Hm, Hex, Hbot, Hv, Hf. cbn.
  repeat (split_match; cbn [res final trace app] in *); trace_mem.
Qed.

End OneKeyCases.

Section LoopMore.
Context (w : World) (g : string).

Lemma loop_effect users s k :
  redis (final (for_of users (processKey w g) s)) !! k = redis s !! k ∨
  (redis (final (for_of users (processKey w g) s)) !! k = None ∧
   k ∈ users ∧ RedisDel k ∈ trace (for_of users (processKey w g) s)).
Proof.
  revert s. induction users as [| k' users IH]; intros s; [by left |].
  rewrite for_of_processKey_cons, final_after, trace_after.
  destruct (IH (final (processKey w g k' s))) as [Heq | (Hn & Hin & Hd)].
  - rewrite Heq.
    destruct (processKey_effect w g k' s) as [-> | [-> Hd]]; [by left |].
    rewrite with_redis_lookup.
    destruct (decide (k = k')) as [-> | Hne];
      [| left; by apply lookup_delete_ne].
    right. split; [apply lookup_delete_eq |].
    split; [apply list_elem_of_here | apply elem_of_app; by left].
  - right. split; [done |].
    split; [by apply list_elem_of_further | apply elem_of_app; by right].
Qed.

Lemma loop_connections users s :
  subscriber (final (for_of users (processKey w g) s)) = subscriber s ∧
  subscriber_open (final (for_of users (processKey w g) s)) = subscriber_open s.
Proof.
  revert s. induction users as [| k users IH]; intros s; [done |].
  rewrite for_of_processKey_cons, final_after.
  destruct (IH (final (processKey w g k s))) as [-> ->].
  apply processKey_connections.
Qed.


Lemma loop_ban_justified users s chat user :
  BanChatMember chat user ∈ trace (for_of users (processKey w g) s) →
  chat = g ∧
  ∃ k text data m,
    k ∈ users ∧ user = userIdOf k ∧
    redis s !! k = Some text ∧ JSON_parse w text = inr data ∧
    getChatMember w g user = inr m ∧ exempt m = false ∧
    (is_bot m = true ∨
     ∃ v, JS.get data "hasRequiredBalance" = inr v ∧ JS.truthy v = false).
Proof.
  revert s. induction users as [| k' users IH]; intros s Hin.
  - by apply elem_of_nil in Hin.
  - rewrite for_of_processKey_cons, trace_after in Hin.
    apply elem_of_app in Hin as [Hin | Hin].
    + apply processKey_ban_justified in Hin
        as (-> & -> & text & data & m & ? & ? & ? & ? & ?).
      split; [done |]. exists k', text, data, m.
      repeat split; try done. apply list_elem_of_here.
    + apply IH in Hin as (-> & k & text & data & m & ? & ? & Hrec & ?).
      split; [done |]. exists k, text, data, m.
      split; [by apply list_elem_of_further |]. split; [done |].
      split; [by eapply processKey_lookup_Some | done].
Qed.

Lemma loop_insufficient_banned users s k text data m v :
  k ∈ users →
  redis_get_fault w k = None → redis s !! k = Some text → text ≠ "" →
  JSON_parse w text = inr data →
  getChatMember w g (userIdOf k) = inr m →
  exempt m = false → is_bot m = false →
  JS.get data "hasRequiredBalance" = inr v → JS.truthy v = false →
  BanChatMember g (userIdOf k) ∈ trace (for_of users (processKey w g) s).
Proof.
  intros Hk Hget Hrec Hne Hparse Hm Hex Hbot Hv Hf. revert s Hrec.
  induction users as [| k' users IH]; intros s Hrec.
  - by apply elem_of_nil in Hk.
  - rewrite for_of_processKey_cons, trace_after. apply elem_of_app.
    destruct (decide (k = k')) as [<- | Hkk'].
    + left. by eapply processKey_insufficient_banned.
    + right. apply elem_of_cons in Hk as [? | Hk]; [done |].
      apply IH; [done |]. by rewrite processKey_lookup_other.
Qed.

Lemma loop_keeps_empty_record users s k :
  redis s !! k = Some "" →
  redis (final (for_of users (processKey w g) s)) !! k = Some "".
Proof.
  revert s. induction users as [| k' users IH]; intros s Hrec; [done |].
  rewrite for_of_processKey_cons, final_after. apply IH.
  destruct (decide (k = k')) as [<- | Hne];
    [by rewrite processKey_empty | by rewrite processKey_lookup_other].
Qed.

Lemma loop_parse_nonempty users s text :
  JsonParse text ∈ trace (for_of users (processKey w g) s) → text ≠ "".
Proof.
  revert s. induction users as [| k users IH]; intros s Hin.
  - by apply elem_of_nil in Hin.
  - rewrite for_of_processKey_cons, trace_after in Hin.
    apply elem_of_app in Hin as [Hin | Hin]; [| by eapply IH].
    by eapply processKey_parse_nonempty.
Qed.

End LoopMore.

Lemma count_none p t : (∀ ev, ev ∈ t → p ev = false) → count p t = 0.
Proof.
  induction t as [| ev t IH]; intros Hp; [done |]. cbn.
  rewrite (Hp ev) by apply list_elem_of_here. rewrite IH; [done |].
  intros ev' ?. apply Hp. by apply list_elem_of_further.
Qed.

Lemma fetched_keys_none t :
  (∀ k, RedisGet k ∉ t) → fetched_keys t = [].
Proof.
  induction t as [| ev t IH]; intros Hp; [done |].
  destruct ev; cbn; try (apply IH; intros k' ?; apply (Hp k');
                         by apply list_elem_of_further).
  destruct (Hp key). apply list_elem_of_here.
Qed.

(** X1.  The tick writes no permission record and deletes only what
    it scanned: after a tick every key that matches the permission
    pattern either holds what it held before, or is gone, was among the
    scanned keys and has a DEL call in the trace.  The subscriber
    connection is not touched. *)
Theorem tick_only_deletes_scanned_keys w s k :
  glob permission_pattern k = true →
  (redis (final (tick w s)) !! k = redis s !! k ∨
   (redis (final (tick w s)) !! k = None ∧
    k ∈ keys_matching permission_pattern (redis s) ∧
    RedisDel k ∈ trace (tick w s))) ∧
  subscriber (final (tick w s)) = subscriber s ∧
  subscriber_open (final (tick w s)) = subscriber_open s.
Proof.
  intros _.
  destruct (tick_cases w s) as [[g Hg] | (-> & _ & _)]; [| by split; [left |]].
  rewrite (tick_scan _ _ _ Hg), final_after, trace_after.
  split; [| apply loop_connections].
  destruct (loop_effect w (formatGroupId g)
              (keys_matching permission_pattern (redis s)) s k)
    as [? | (? & ? & ?)]; [by left | right].
  repeat split; try done. apply elem_of_app. by right.
Qed.

(** The record of an administrator stays as it was. *)
Lemma tick_only_deletes_scanned_keys_witness :
  (redis (final (tick (example_world None (as_member "administrator" false) None)
                      (example_store [("user:333:permissions", record_text false)])))
     !! "user:333:permissions"
   = redis (example_store [("user:333:permissions", record_text false)])
       !! "user:333:permissions" ∨
   (redis (final (tick (example_world None (as_member "administrator" false) None)
                       (example_store [("user:333:permissions", record_text false)])))
      !! "user:333:permissions" = None ∧
    "user:333:permissions"
      ∈ keys_matching permission_pattern
          (redis (example_store [("user:333:permissions", record_text false)])) ∧
    RedisDel "user:333:permissions"
      ∈ trace (tick (example_world None (as_member "administrator" false) None)
                    (example_store [("user:333:permissions", record_text false)])))) ∧
  subscriber (final (tick (example_world None (as_member "administrator" false) None)
                          (example_store [("user:333:permissions", record_text false)])))
    = subscriber (example_store [("user:333:permissions", record_text false)]) ∧
  subscriber_open (final (tick (example_world None (as_member "administrator" false) None)
                               (example_store [("user:333:permissions", record_text false)])))
    = subscriber_open (example_store [("user:333:permissions", record_text false)]).
Proof.
  apply (tick_only_deletes_scanned_keys
           (example_world None (as_member "administrator" false) None)
           (example_store [("user:333:permissions", record_text false)])
           "user:333:permissions").
  reflexivity.
Defined.



(** X3.  Every removal call of a tick is justified by a scanned key:
    the call targets the normalised group and the user id of that key,
    the key's record at the start of the tick parses, the lookup for that
    user reported a role other than creator and administrator, and the
    member is a bot or the record's [hasRequiredBalance] is falsy. *)
Theorem removal_is_justified w s chat user :
  BanChatMember chat user ∈ trace (tick w s) →
  ∃ g k text data m,
    PRIVATE_GROUP_ID w = Some g ∧ chat = formatGroupId g ∧
    k ∈ keys_matching permission_pattern (redis s) ∧ user = userIdOf k ∧
    redis s !! k = Some text ∧ JSON_parse w text = inr data ∧
    getChatMember w chat user = inr m ∧ exempt m = false ∧
    (is_bot m = true ∨
     ∃ v, JS.get data "hasRequiredBalance" = inr v ∧ JS.truthy v = false).
Proof.
  intros Hin. destruct (tick_cases w s) as [[g Hg] | (_ & _ & He)].
  - rewrite (tick_scan _ _ _ Hg), trace_after in Hin.
    apply elem_of_app in Hin as [Hin | Hin]; [in_trace; done |].
    apply loop_ban_justified in Hin as (-> & k & text & data & m & ?).
    exists g, k, text, data, m. split; [apply Hg | by split].
  - by apply He in Hin.
Qed.

Lemma removal_is_justified_witness :
  ∃ g k text data m,
    PRIVATE_GROUP_ID (example_world None (as_member "member" false) None) = Some g ∧
    "-100123456" = formatGroupId g ∧
    k ∈ keys_matching permission_pattern
          (redis (example_store [("user:111:permissions", record_text false)])) ∧
    Some "111" = userIdOf k ∧
    redis (example_store [("user:111:permissions", record_text false)]) !! k
      = Some text ∧
    JSON_parse (example_world None (as_member "member" false) None) text = inr data ∧
    getChatMember (example_world None (as_member "member" false) None)
      "-100123456" (Some "111") = inr m ∧
    exempt m = false ∧
    (is_bot m = true ∨
     ∃ v, JS.get data "hasRequiredBalance" = inr v ∧ JS.truthy v = false).
Proof.
  apply (removal_is_justified
           (example_world None (as_member "member" false) None)
           (example_store [("user:111:permissions", record_text false)])
           "-100123456" (Some "111")).
  rewrite scenario_A. trace_mem.
Defined.

(** X4.  A scanned key whose record is read, whose lookup reports a
    member that is neither exempt nor a bot, and whose record has a
    falsy [hasRequiredBalance] gets a removal call for its user. *)
Theorem insufficient_balance_removed w s g k data m v :
  scan_runs w g →
  k ∈ keys_matching permission_pattern (redis s) →
  record_read w s k data →
  getChatMember w (formatGroupId g) (userIdOf k) = inr m →
  exempt m = false → is_bot m = false →
  JS.get data "hasRequiredBalance" = inr v → JS.truthy v = false →
  BanChatMember (formatGroupId g) (userIdOf k) ∈ trace (tick w s).
Proof.
  intros Hrun Hin (Hget & text & Hrec & Hne & Hparse) Hm Hex Hbot Hv Hf.
  rewrite (tick_scan _ _ _ Hrun), trace_after. apply elem_of_app. right.
  by eapply loop_insufficient_banned.
Qed.

Lemma insufficient_balance_removed_witness :
  BanChatMember "-100123456" (Some "111")
    ∈ trace (tick (example_world None (as_member "restricted" false)
                                 (Some (JS.ExternalError "not enough rights")))
                  (example_store [("user:111:permissions", record_text false)])).
Proof.
  apply (insufficient_balance_removed
           (example_world None (as_member "restricted" false)
                          (Some (JS.ExternalError "not enough rights")))
           (example_store [("user:111:permissions", record_text false)])
           "123456" "user:111:permissions"
           (JS.Obj [("hasRequiredBalance", JS.Bool false)])
           {| status := "restricted"; is_bot := false |} (JS.Bool false)).
  - by repeat split.
  - apply elem_of_keys_matching. split; [reflexivity |]. vm_compute. eauto.
  - split; [reflexivity |]. exists (record_text false). by repeat split.
  - reflexivity.
  - reflexivity.
  - reflexivity.
  - reflexivity.
  - reflexivity.
Defined.

(** X5.  A tick that does not reach the key loop (no group configured,
    or the job submission or the key scan rejected) ends normally, leaves
    every permission record as it was, and issues no GET, no DEL, no
    membership lookup and no removal call. *)
Theorem idle_tick_touches_nothing w s :
  (∀ g, ¬ scan_runs w g) →
  res (tick w s) = Normal tt ∧
  (∀ k, glob permission_pattern k = true →
        redis (final (tick w s)) !! k = redis s !! k) ∧
  fetched_keys (trace (tick w s)) = [] ∧
  count is_lookup (trace (tick w s)) = 0 ∧
  count is_ban (trace (tick w s)) = 0 ∧
  count is_del (trace (tick w s)) = 0.
Proof.
  intros Hidle. destruct (tick_cases w s) as [[g Hg] | (Hs & Hr & He)];
    [by destruct (Hidle g) |].
  repeat split; try done.
  - intros k _. by rewrite Hs.
  - apply fetched_keys_none. intros k Hin. by apply He in Hin.
  - apply count_none. intros ev Hin. apply He in Hin. by destruct ev.
  - apply count_none. intros ev Hin. apply He in Hin. by destruct ev.
  - apply count_none. intros ev Hin. apply He in Hin. by destruct ev.
Qed.

(** The scan is rejected while a record is waiting. *)
Lemma idle_tick_touches_nothing_witness :
  redis (final (tick {| PRIVATE_GROUP_ID := Some "123456";
                        queue_add := fun _ => None;
                        redis_keys_fault := Some (JS.ExternalError "ECONNRESET");
                        redis_get_fault := fun _ => None;
                        redis_del_fault := fun _ => None;
                        JSON_parse := parse_example;
                        getChatMember := fun _ => as_member "member" false;
                        banChatMember := fun _ _ => None;
                        sendMessage := fun _ _ => None;
                        formatUpdateMessage := fun _ => inr "update" |}
                     (example_store [("user:111:permissions", record_text false)])))
    !! "user:111:permissions"
  = redis (example_store [("user:111:permissions", record_text false)])
      !! "user:111:permissions".
Proof.
  refine (proj1 (proj2 (idle_tick_touches_nothing _ _ _)) "user:111:permissions" eq_refl).
  intros g (_ & _ & _ & Hk). discriminate Hk.
Defined.

(** X6.  A permission key whose value is the empty string is never
    processed: the tick never hands an empty text to [JSON.parse], and
    the key still holds the empty string afterwards, tick after tick. *)
Theorem empty_record_is_skipped w s k :
  redis s !! k = Some "" →
  redis (final (tick w s)) !! k = Some "" ∧
  JsonParse "" ∉ trace (tick w s).
Proof.
  intros Hrec. destruct (tick_cases w s) as [[g Hg] | (Hs & _ & He)].
  - rewrite (tick_scan _ _ _ Hg), final_after, trace_after. split.
    + by apply loop_keeps_empty_record.
    + intros Hin. apply elem_of_app in Hin as [Hin | Hin]; [in_trace; done |].
      by apply loop_parse_nonempty in Hin.
  - rewrite Hs. split; [done |]. intros Hin. by apply He in Hin.
Qed.

Lemma empty_record_is_skipped_witness :
  redis (final (tick (example_world None (as_member "member" false) None)
                     (example_store [("user:888:permissions", "")])))
    !! "user:888:permissions" = Some "".
Proof.
  apply (empty_record_is_skipped
           (example_world None (as_member "member" false) None)
           (example_store [("user:888:permissions", "")])
           "user:888:permissions").
  reflexivity.
Defined.

(** * Further properties of the sentiment fan-out *)

(** X7.  Every [sendMessage] call of the listener is justified: the
    message came on the sentiment channel and parsed, its
    [significantTweetsCount] is not 0, a group is configured, the text
    is the rendering of that batch, and the destination is the
    normalised group id. *)
Theorem send_is_justified w this channel message s chat text :
  SendMessage chat text ∈ trace (onMessage w this channel message s) →
  channel = channel_name ∧ privateGroupId this ≠ "" ∧
  chat = formatGroupId (privateGroupId this) ∧
  ∃ update c,
    JSON_parse w message = inr update ∧
    significantTweetsCount update = inr c ∧ JS.strict_eq_zero c = false ∧
    formatUpdateMessage w update = inr text.
Proof.
  unfold significantTweetsCount. unfold_fanout.
  destruct (String.eqb_spec channel channel_name) as [-> | Hne];
    [| cbn; intros H; in_trace].
  destruct (JSON_parse w message) as [e | update] eqn:Hp;
    cbn [res final trace app]; [intros H; in_trace; discriminate |].
  destruct (JS.get update "metadata") as [e | metadata] eqn:Hmeta;
    cbn [res final trace app]; [intros H; in_trace; discriminate |].
  destruct (JS.get metadata "significantTweetsCount") as [e | c] eqn:Hc;
    cbn [res final trace app]; [intros H; in_trace; discriminate |].
  destruct (JS.strict_eq_zero c) eqn:Hz; cbn [orb res final trace app];
    [intros H; in_trace; discriminate |].
  destruct (String.eqb_spec (privateGroupId this) "") as [Hg | Hg];
    cbn [res final trace app]; [intros H; in_trace; discriminate |].
  destruct (formatUpdateMessage w update) as [e | rendered] eqn:Hr;
    cbn [res final trace app]; [intros H; in_trace; discriminate |].
  destruct (sendMessage w _ rendered); cbn [res final trace app];
    intros H; in_trace; simplify_eq;
    (do 3 (split; [done |])); exists update, c; rewrite Hmeta; by repeat split.
Qed.

Lemma send_is_justified_witness :
  "sentiment:updates" = channel_name ∧
  privateGroupId (make (Some "123456")) ≠ "" ∧
  "-100123456" = formatGroupId (privateGroupId (make (Some "123456"))) ∧
  ∃ update c,
    JSON_parse (fanout_world (fun _ => inr "2 significant tweets") None)
      busy_batch_text = inr update ∧
    significantTweetsCount update = inr c ∧ JS.strict_eq_zero c = false ∧
    formatUpdateMessage (fanout_world (fun _ => inr "2 significant tweets") None)
      update = inr "2 significant tweets".
Proof.
  apply (send_is_justified
           (fanout_world (fun _ => inr "2 significant tweets") None)
           (make (Some "123456")) "sentiment:updates" busy_batch_text
           (example_store [])).
  vm_compute. trace_mem.
Defined.

(** X8.  A batch with a non-zero count, with a group configured and a
    rendering that succeeds, is delivered exactly once to the normalised
    group id; a rejected delivery is logged by [broadcastUpdate], not
    retried, and the listener still returns normally. *)
Theorem significant_batch_is_delivered w this message update c text s :
  JSON_parse w message = inr update →
  significantTweetsCount update = inr c → JS.strict_eq_zero c = false →
  privateGroupId this ≠ "" →
  formatUpdateMessage w update = inr text →
  onMessage w this channel_name message s =
    Outcome (Normal tt) s
      (JsonParse message
       :: SendMessage (formatGroupId (privateGroupId this)) text
       :: match sendMessage w (formatGroupId (privateGroupId this)) text with
          | Some e =>
              [Log Error "Failed to send sentiment update to private group:"
                   (ErrorArg e)]
          | None => []
          end).
Proof.
  unfold significantTweetsCount. intros Hp Hc Hz Hg Hr.
  unfold onMessage. rewrite String.eqb_refl. unfold_fanout. rewrite Hp. cbn.
  destruct (JS.get update "metadata") as [e | metadata]; [done |]. cbn.
  rewrite Hc. cbn. rewrite Hz. apply String.eqb_neq in Hg as ->. cbn.
  rewrite Hr. cbn. by destruct (sendMessage w _ text).
Qed.

Lemma significant_batch_is_delivered_witness :
  onMessage (fanout_world (fun _ => inr "2 significant tweets")
                          (Some (JS.ExternalError "chat not found")))
            (make (Some "-123456")) channel_name busy_batch_text (example_store [])
  = Outcome (Normal tt) (example_store [])
      [JsonParse busy_batch_text;
       SendMessage "-100123456" "2 significant tweets";
       Log Error "Failed to send sentiment update to private group:"
           (ErrorArg (JS.ExternalError "chat not found"))].
Proof.
  apply (significant_batch_is_delivered
           (fanout_world (fun _ => inr "2 significant tweets")
                         (Some (JS.ExternalError "chat not found")))
           (make (Some "-123456")) busy_batch_text busy_batch (JS.Num 2%float));
    [reflexivity | reflexivity | reflexivity | discriminate | reflexivity].
Defined.

(** X9.  A parsed message that has no [metadata] to read the count
    from, or whose rendering throws, is dropped: nothing is sent, and the
    one error line comes from the listener's handler. *)
Theorem unreadable_batch_is_dropped w this message update e s :
  JSON_parse w message = inr update →
  significantTweetsCount update = inl e ∨
  (privateGroupId this ≠ "" ∧ formatUpdateMessage w update = inl e ∧
   ∃ c, significantTweetsCount update = inr c ∧ JS.strict_eq_zero c = false) →
  onMessage w this channel_name message s =
    Outcome (Normal tt) s
      [JsonParse message;
       Log Error "Error processing sentiment update:" (ErrorArg e)].
Proof.
  unfold significantTweetsCount. intros Hp Hcase.
  unfold onMessage. rewrite String.eqb_refl. unfold_fanout. rewrite Hp. cbn.
  destruct (JS.get update "metadata") as [e' | metadata].
  - destruct Hcase as [[= ->] | (_ & _ & c & [=] & _)]. done.
  - cbn. destruct Hcase as [-> | (Hg & Hr & c & -> & Hz)]; [done |].
    cbn. rewrite Hz. apply String.eqb_neq in Hg as ->. cbn. by rewrite Hr.
Qed.

(** The JSON text [null] parses, and has no [metadata]. *)
Lemma unreadable_batch_is_dropped_witness :
  onMessage {| PRIVATE_GROUP_ID := Some "123456";
               queue_add := fun _ => None;
               redis_keys_fault := None;
               redis_get_fault := fun _ => None;
               redis_del_fault := fun _ => None;
               JSON_parse := fun text =>
                 if String.eqb text "null" then inr JS.Null else inl JS.SyntaxError;
               getChatMember := fun _ _ => inl (JS.ExternalError "unused");
               banChatMember := fun _ _ => None;
               sendMessage := fun _ _ => None;
               formatUpdateMessage := fun _ => inr "update" |}
            (make (Some "123456")) channel_name "null" (example_store [])
  = Outcome (Normal tt) (example_store [])
      [JsonParse "null";
       Log Error "Error processing sentiment update:" (ErrorArg JS.TypeError)].
Proof.
  apply (unreadable_batch_is_dropped _ _ "null" JS.Null JS.TypeError);
    [reflexivity | by left].
Defined.

(** X10.  Whatever arrives, the listener makes at most one
    [sendMessage] call. *)
Theorem at_most_one_send w this channel message s :
  (count is_send (trace (onMessage w this channel message s)) ≤ 1)%nat.
Proof.
  unfold_fanout.
  repeat (split_match; cbn [res final trace app] in *; simplify_eq; auto);
    cbn; lia.
Qed.

(** * Further properties of the identifiers *)

Lemma startsWith_no_dash id p :
  has_dash id = false → JS.startsWith id (String "-" p) = false.
Proof.
  destruct id as [| c id]; [done |]. cbn [has_dash JS.startsWith].
  intros [Hc _]%orb_false_iff. rewrite Ascii.eqb_sym. by rewrite Hc.
Qed.

(** X11.  The normalised identifier always starts with "-100", so
    normalising twice is the same as normalising once. *)
Theorem formatGroupId_idempotent id :
  JS.startsWith (formatGroupId id) "-100" = true ∧
  formatGroupId (formatGroupId id) = formatGroupId id.
Proof.
  assert (Hp : JS.startsWith (formatGroupId id) "-100" = true).
  { unfold formatGroupId.
    destruct (JS.startsWith id "-100") eqn:Hid; [exact Hid | ].
    by destruct (JS.replace id "-" ""). }
  split; [done |]. unfold formatGroupId at 1. by rewrite Hp.
Qed.

(** X12.  For an identifier without any "-", the bare form gets the
    prefix put in front; the form with a leading "-" normalises to the
    same result, except when the identifier itself begins with "100": then
    the signed form is taken as already prefixed and returned as it is,
    while the bare form is prefixed once more. *)
Theorem formatGroupId_sign id :
  has_dash id = false →
  formatGroupId id = "-100" +:+ id ∧
  formatGroupId ("-" +:+ id) =
    if JS.startsWith id "100" then "-" +:+ id else "-100" +:+ id.
Proof.
  intros Hd. unfold formatGroupId. split.
  - rewrite startsWith_no_dash by done.
    by rewrite replace_dash, remove_first_dash_id.
  - change (JS.startsWith ("-" +:+ id) "-100") with (JS.startsWith id "100").
    destruct (JS.startsWith id "100"); [done |].
    by rewrite replace_dash.
Qed.

Lemma formatGroupId_sign_witness :
  formatGroupId "1001234567890" = "-1001001234567890" ∧
  formatGroupId "-1001234567890" = "-1001234567890".
Proof. exact (formatGroupId_sign "1001234567890" eq_refl). Defined.


Lemma split_no_sep u rest :
  has_colon u = false →
  JS.split (u +:+ String ":" rest) ":" = u :: JS.split rest ":".
Proof.
  induction u as [| c u IH]; [done |].
  cbn [has_colon]. intros [Hc Hu]%orb_false_iff.
  change (String c u +:+ String ":" rest) with (String c (u +:+ String ":" rest)).
  cbn [JS.split]. rewrite Hc. by rewrite IH.
Qed.

Lemma glob_star_skip p s pre :
  glob p s = true → glob (String "*" p) (pre +:+ s) = true.
Proof.
  intros Hs. induction pre as [| c pre IH].
  - change ("" +:+ s) with s. destruct s; cbn [glob]; by rewrite Hs.
  - change (String c pre +:+ s) with (String c (pre +:+ s)).
    cbn [glob]. cbn [glob] in IH. by rewrite IH, orb_true_r.
Qed.



(** X14.  A key of the form [user:<id>:permissions] is matched by the
    scan pattern whatever the id; the user id read back from it is the
    text up to the first ":" after the "user:" prefix, that is the id
    itself exactly when the id contains no ":". *)
Theorem permission_key_round_trip u rest :
  glob permission_pattern ("user:" +:+ u +:+ ":permissions") = true ∧
  (has_colon u = false →
   userIdOf ("user:" +:+ u +:+ ":" +:+ rest) = Some u).
Proof.
  split.
  - change (glob (String "*" ":permissions") (u +:+ ":permissions") = true).
    by apply glob_star_skip.
  - intros Hu. unfold userIdOf.
    change (JS.split ("user:" +:+ u +:+ ":" +:+ rest) ":")
      with ("user" :: JS.split (u +:+ String ":" rest) ":").
    by rewrite split_no_sep.
Qed.

Lemma permission_key_round_trip_witness :
  userIdOf "user:42:extra:permissions" = Some "42".
Proof.
  exact (proj2 (permission_key_round_trip "42" "extra:permissions") eq_refl).
Defined.

(** * Properties of the Telegram handlers *)

Ltac unfold_bot :=
  cbv [Bot.onMessage Bot.stop Bot.start Bot.inviteLinkFor Bot.function_ Bot.try_
       Bot.and_then Bot.awaited Bot.call Bot.raise Bot.return_ Bot.pure
       Bot.userIdOfCtx].

Ltac bot_cases :=
  repeat (split_match; cbn [Bot.ended Bot.calls app fmap option_fmap option_map] in *;
          simplify_eq; auto).

(** X15.  The message listener hands every message to the message
    manager exactly once, whether or not the backend registration
    failed, with one exception: while the trader setting is on, a message
    without a sender is dropped and never reaches the manager. *)
Theorem message_reaches_manager env ctx :
  Bot.count Bot.is_HandleMessage (Bot.calls (Bot.onMessage env ctx)) =
    if Bot.tgTrader env && bool_decide (Bot.from ctx = None) then 0 else 1.
Proof.
  unfold_bot. destruct (Bot.tgTrader env); cbn [andb];
    [destruct (Bot.from ctx) as [u |]; cbn [fmap option_fmap option_map] |];
    bot_cases; by cbn.
Qed.

(** X16.  The listener answers with its error text exactly when the
    message manager failed, and the only error that can escape the
    listener is the failure of that answer. *)
Theorem message_failure_is_answered env ctx :
  (∀ text button,
     Bot.Reply text button ∈ Bot.calls (Bot.onMessage env ctx) →
     Bot.handleMessage env ≠ None ∧ button = None ∧
     text = "An error occurred while processing your message.") ∧
  (∀ e, Bot.ended (Bot.onMessage env ctx) = Bot.Thrown e →
        Bot.handleMessage env ≠ None ∧
        Bot.reply env "An error occurred while processing your message." = Some e) ∧
  Bot.ended (Bot.onMessage env ctx) ≠ Bot.Returned.
Proof.
  unfold_bot. destruct (Bot.tgTrader env);
    [destruct (Bot.from ctx) as [u |]; cbn [fmap option_fmap option_map] |];
    bot_cases; cbn [Bot.ended Bot.calls app]; repeat split; try done;
    intros; in_trace; simplify_eq; by repeat split.
Qed.

(** X17.  The name under which a sender is registered and labelled is
    never empty: an absent or empty username falls back to the first
    name, and an absent or empty first name to "Unknown". *)
Theorem username_never_empty ctx : Bot.usernameOfCtx ctx ≠ "".
Proof.
  unfold Bot.usernameOfCtx.
  destruct (Bot.from ctx) as [[i [[| c n] |] [[| c' f] |]] |]; done.
Qed.

(** X18.  [stop] cancels the reconciliation timer before anything that
    can fail; the fan-out is stopped only after [bot.stop()] went
    through and only if the service had been created, and [stop]
    completes exactly when both succeeded. *)
Theorem stop_cancels_timer_first env :
  ∃ rest,
    Bot.calls (Bot.stop env) =
      Bot.Logged Info "Stopping Telegram bot..." NoArg
      :: Bot.ClearInterval :: Bot.BotStop :: rest ∧
    (Bot.SentimentStop ∈ rest ↔
       Bot.bot_stop env = None ∧ is_Some (Bot.sentimentService env)) ∧
    (Bot.ended (Bot.stop env) = Bot.Done tt ↔
       Bot.bot_stop env = None ∧ Bot.sentimentService env = Some None).
Proof.
  unfold_bot.
  destruct (Bot.bot_stop env) as [e |];
    [| destruct (Bot.sentimentService env) as [[e |] |]];
    cbn; eexists; (split; [reflexivity |]); split; split;
    try (intros H; in_trace; simplify_eq; done);
    try (intros [? ?]; simplify_eq; done);
    try (intros [? [? ?]]; simplify_eq; done);
    try done.
  all: try (intros _; trace_mem).
  all: try (intros _; split; [done | by eexists]).
Qed.

(** X19.  An invite link is only ever requested after the sender was
    unbanned: each [createChatInviteLink] call of the [start] command
    is for the normalised configured group, follows an
    [unbanChatMember] call for the sender that resolved, is named after
    the sender, and expires one hour after the current second. *)
Theorem invite_link_follows_unban env ctx chat name expire_date :
  Bot.CreateChatInviteLink chat name expire_date ∈ Bot.calls (Bot.start env ctx) →
  ∃ group user,
    Bot.truthy_string (Bot.privateGroupId env) = Some group ∧
    chat = formatGroupId group ∧
    Bot.from ctx = Some user ∧
    Bot.unbanChatMember env chat (Bot.id user) = None ∧
    name = Bot.usernameOfCtx ctx +:+ " (" +:+ pretty (Bot.id user) +:+ ")" ∧
    expire_date = (Bot.now env `div` 1000 + 3600)%Z.
Proof.
  unfold_bot.
  destruct (Bot.from ctx) as [user |]; cbn [Bot.ended Bot.calls app];
    [| bot_cases; cbn [Bot.ended Bot.calls app]; intros H; in_trace; discriminate].
  destruct (Bot.truthy_string (Bot.privateGroupId env)) as [group |] eqn:Hgroup;
    bot_cases; cbn [Bot.ended Bot.calls app]; intros H; in_trace; simplify_eq;
    exists group, user; by repeat split.
Qed.

(** X20.  When the sender is known and the first answer went out, the
    [start] command reports the session to the server exactly once and
    completes, whatever happened to the invite link: the report carries
    the session id, the sender's id, and as invite link either the
    created link or the empty string. *)
Theorem start_reports_session env ctx user :
  Bot.from ctx = Some user →
  Bot.reply env
    (if Bot.chat_is_private ctx
     then "Please connect your wallet to complete verification:"
     else "Please start a private chat with me first by clicking the button below.")
    = None →
  Bot.ended (Bot.start env ctx) = Bot.Done tt ∧
  Bot.count Bot.is_AskServer (Bot.calls (Bot.start env ctx)) = 1 ∧
  ∀ sessionId inviteUrl telegramId,
    Bot.AskServer sessionId inviteUrl telegramId ∈ Bot.calls (Bot.start env ctx) →
    sessionId = Bot.uuidv4 env ∧ telegramId = pretty (Bot.id user) ∧
    (inviteUrl = "" ∨
     ∃ chat name expire_date,
       Bot.createChatInviteLink env chat name expire_date = inr inviteUrl ∧
       Bot.CreateChatInviteLink chat name expire_date
         ∈ Bot.calls (Bot.start env ctx)).
Proof.
  intros Hfrom Hreply. unfold_bot. rewrite Hfrom.
  destruct (Bot.chat_is_private ctx); rewrite Hreply;
    cbn [Bot.ended Bot.calls app];
    bot_cases; cbn [Bot.ended Bot.calls app Bot.count Bot.is_AskServer];
    (split; [done |]); (split; [done |]);
    intros sid url tid H; in_trace; simplify_eq;
    (do 2 (split; [done |]));
    first [by left | right; do 3 eexists; split; [eassumption | trace_mem]].
Qed.

Lemma start_reports_session_witness :
  Bot.count Bot.is_AskServer
    (Bot.calls
       (Bot.start
          {| Bot.tgTrader := false;
             Bot.getOrCreateRecommenderInBe := fun _ _ => None;
             Bot.handleMessage := None;
             Bot.reply := fun _ => None;
             Bot.uuidv4 := "0f8fad5b-d9cb-469f-a165-70867728950e";
             Bot.webAppUrl := "https://app.example";
             Bot.privateGroupId := Some "123456";
             Bot.unbanChatMember := fun _ _ => Some (JS.ExternalError "not enough rights");
             Bot.createChatInviteLink := fun _ _ _ => inr "https://t.me/+abc";
             Bot.askServer := fun _ _ _ => None;
             Bot.now := 1700000000000%Z;
             Bot.bot_stop := None;
             Bot.sentimentService := Some None |}
          {| Bot.from := Some {| Bot.id := 111%Z; Bot.username := None;
                                 Bot.first_name := Some "Ada" |};
             Bot.chat_is_private := true;
             Bot.bot_username := Some "gatekeeper_bot" |})) = 1.
Proof.
  refine (proj1 (proj2 (start_reports_session _ _
            {| Bot.id := 111%Z; Bot.username := None; Bot.first_name := Some "Ada" |}
            _ _))); reflexivity.
Defined.

Lemma invite_link_follows_unban_witness :
  ∃ group user,
    Bot.truthy_string (Some "123456") = Some group ∧
    "-100123456" = formatGroupId group ∧
    Some {| Bot.id := 111%Z; Bot.username := None; Bot.first_name := Some "Ada" |}
      = Some user ∧
    (None : option JS.error) = None ∧
    "Ada (111)" = "Ada" +:+ " (" +:+ pretty (Bot.id user) +:+ ")" ∧
    1700003600%Z = (1700000000000 `div` 1000 + 3600)%Z.
Proof.
  apply (invite_link_follows_unban
          {| Bot.tgTrader := false;
             Bot.getOrCreateRecommenderInBe := fun _ _ => None;
             Bot.handleMessage := None;
             Bot.reply := fun _ => None;
             Bot.uuidv4 := "0f8fad5b-d9cb-469f-a165-70867728950e";
             Bot.webAppUrl := "https://app.example";
             Bot.privateGroupId := Some "123456";
             Bot.unbanChatMember := fun _ _ => None;
             Bot.createChatInviteLink := fun _ _ _ => inr "https://t.me/+abc";
             Bot.askServer := fun _ _ _ => None;
             Bot.now := 1700000000000%Z;
             Bot.bot_stop := None;
             Bot.sentimentService := Some None |}
          {| Bot.from := Some {| Bot.id := 111%Z; Bot.username := None;
                                 Bot.first_name := Some "Ada" |};
             Bot.chat_is_private := true;
             Bot.bot_username := Some "gatekeeper_bot" |}
          "-100123456" "Ada (111)" 1700003600%Z).
  vm_compute. trace_mem.
Defined.

(** * Properties of the rendering *)

Section RenderFacts.
Import Render.
Local Open Scope render_scope.
Context (ToString percent : JS.value → JS.error + string).
Hypothesis ToString_total : ∀ v, ∃ s, ToString v = inr s.
Hypothesis percent_total : ∀ v, ∃ s, percent v = inr s.

Lemma get_field v name :
  JS.get v name = if nullish v then inl JS.TypeError else inr (field v name).
Proof. unfold field. by destruct v. Qed.

Ltac coerce :=
  repeat match goal with
    | |- context [ToString ?v] =>
        let s := fresh "s" in let H := fresh in
        destruct (ToString_total v) as [s H]; rewrite H; clear H;
        cbn [or_throw]
    | |- context [percent ?v] =>
        let s := fresh "s" in let H := fresh in
        destruct (percent_total v) as [s H]; rewrite H; clear H;
        cbn [or_throw]
    end.

Lemma renderTopic_total topic : ∃ s, renderTopic ToString topic = inr s.
Proof.
  unfold renderTopic.
  destruct topic; try by eexists.
  all: cbn [JS.get or_throw];
    match goal with |- context [JS.truthy ?n] => destruct (JS.truthy n) end;
    [| by eexists]; coerce; by eexists.
Qed.

Lemma map_or_throw_total {A B} (f : A → JS.error + B) items :
  (∀ x, ∃ y, f x = inr y) → ∃ ys, map_or_throw f items = inr ys.
Proof.
  intros Hf. induction items as [| x items [ys IH]]; cbn; [by eexists |].
  destruct (Hf x) as [y ->]. cbn. rewrite IH. by eexists.
Qed.

Lemma renderTweet_ok tweet :
  (∃ s, renderTweet ToString percent tweet = inr s) ↔ tweet_ok tweet = true.
Proof.
  unfold renderTweet, tweet_ok. rewrite !get_field.
  destruct (nullish tweet); cbn [or_throw negb andb];
    [split; [by intros [? ?] | done] |].
  coerce. rewrite ?get_field.
  destruct (nullish (field tweet "analysis")); cbn [or_throw negb andb];
    [split; [by intros [? ?] | done] |].
  coerce. rewrite ?get_field.
  destruct (nullish (field tweet "engagement")); cbn [or_throw negb andb];
    [split; [by intros [? ?] | done] |].
  coerce. split; [done | by eexists].
Qed.

Lemma renderTweets_ok tweets :
  (∃ blocks, map_or_throw (renderTweet ToString percent) tweets = inr blocks)
  ↔ forallb tweet_ok tweets = true.
Proof.
  induction tweets as [| tweet tweets IH]; cbn [map_or_throw forallb];
    [split; [done | by eexists] |].
  rewrite andb_true_iff, <- IH, <- renderTweet_ok. split.
  - intros [blocks H].
    destruct (renderTweet ToString percent tweet); [done |].
    cbn in H. destruct (map_or_throw _ tweets); [done |].
    split; by eexists.
  - intros [[s ->] [blocks ->]]. by eexists.
Qed.

Lemma header_ok update :
  (∃ h, header ToString percent update = inr h) ↔
  negb (nullish update) && negb (nullish (field update "metadata"))
  && negb (nullish (field update "statistics"))
  && is_array (field (field update "statistics") "topTopics") = true.
Proof.
  unfold header. rewrite !get_field.
  destruct (nullish update); cbn [or_throw negb andb];
    [split; [by intros [? ?] | done] |].
  rewrite ?get_field.
  destruct (nullish (field update "metadata")); cbn [or_throw negb andb];
    [split; [by intros [? ?] | done] |].
  coerce. rewrite ?get_field.
  destruct (nullish (field update "statistics")); cbn [or_throw negb andb];
    [split; [by intros [? ?] | done] |].
  coerce.
  destruct (field (field update "statistics") "topTopics") as [| | | | | topics |];
    cbn [as_array is_array or_throw]; try (split; [by intros [? ?] | done]).
  destruct (map_or_throw_total (renderTopic ToString) (take 3 topics)
              renderTopic_total) as [ts ->].
  cbn [or_throw]. split; [done | by eexists].
Qed.

(** X21.  Provided the engine's two coercions do not throw, a batch is
    rendered exactly when it has the shape the renderer reads: it is an
    object with [metadata] and [statistics], [statistics.topTopics] is an
    array, and [tweets] is an array whose items each have [analysis] and
    [engagement].  Every other batch makes the renderer throw. *)
Theorem renders_iff_renderable update :
  (∃ text, formatUpdateMessage ToString percent update = inr text) ↔
  renderable update = true.
Proof.
  unfold formatUpdateMessage, renderable.
  rewrite andb_true_iff, <- header_ok.
  destruct (header ToString percent update) as [e | h] eqn:Hh; cbn [or_throw].
  - split; [by intros [? ?] | by intros [[? ?] _]].
  - assert (Hu : nullish update = false).
    { destruct (nullish update) eqn:Hn; [| done].
      unfold header in Hh. rewrite get_field, Hn in Hh. done. }
    rewrite get_field, Hu. cbn [or_throw].
    destruct (field update "tweets") as [| | | | | tweets |];
      cbn [as_array or_throw]; try (split; [by intros [? ?] | by intros [_ ?]]).
    rewrite <- renderTweets_ok.
    destruct (map_or_throw _ tweets); cbn [or_throw].
    + split; [by intros [? ?] | by intros [_ [? ?]]].
    + split; [intros _; split; by eexists | by eexists].
Qed.

End RenderFacts.

Lemma renders_iff_renderable_witness :
  ∃ text,
    Render.formatUpdateMessage ToString_example percent_example scenario_D_batch
      = inr text.
Proof.
  apply (renders_iff_renderable ToString_example percent_example).
  - intros v. destruct v; by eexists.
  - intros v. destruct v; by eexists.
  - reflexivity.
Defined.

(** Scenario D: the topics line reads "X (5)", and with no tweet listed
    the text ends with the header. *)
Example scenario_D :
  Render.formatUpdateMessage ToString_example percent_example scenario_D_batch
  = inr ("🔥 Sentiment Analysis Update" +:+ Render.nl +:+ Render.nl +:+
         "Analyzed 10 tweets" +:+ Render.nl +:+
         "Found 2 significant tweets" +:+ Render.nl +:+ Render.nl +:+
         "📊 Statistics:" +:+ Render.nl +:+
         "Average Sentiment: 50.0%" +:+ Render.nl +:+
         "Average Credibility: 75.0%" +:+ Render.nl +:+ Render.nl +:+
         "🔝 Top Topics: X (5)" +:+ Render.nl +:+ Render.nl +:+
         "Significant Tweets:" +:+ Render.nl +:+ Render.nl).
Proof. vm_compute. reflexivity. Qed.
